(** * LexlyAI front end: API client and session/chat state, embedded in Rocq

    The development follows the TypeScript sources:
    - [types/index.ts]                 the records of section "Domain types";
    - [services/apiService.ts]         module [ApiService];
    - [App.tsx]                        module [App];
    - [components/DocumentUpload.tsx]  module [DocumentUpload];
    - [components/ChatInterface.tsx]   module [ChatInterface];
    - the analysis view component      module [DocumentAnalysisView];
    - the analysis view as [App] mounts and unmounts it, module [Page].

    JavaScript strings are sequences of UTF-16 code units.  A promise is
    modelled by what it leaves behind once settled: the HTTP requests that
    were issued and either the value it resolved to or the error it was
    rejected with.  React state is a record; a handler maps the state of the
    render it closes over to the state after its setters have run. *)

From Stdlib Require Import ZArith NArith QArith.QArith_base Ascii String.
From stdpp Require Import base decidable option countable list gmap.

Local Open Scope Z_scope.

(** ** JavaScript strings *)

Abbreviation jsstring := (list N).

Definition js (s : string) : jsstring :=
  List.map N_of_ascii (list_ascii_of_string s).

Arguments js : simpl never.

(** Truthiness of a string: only the empty string is falsy. *)
Definition truthy (s : jsstring) : bool :=
  match s with [] => false | _ :: _ => true end.

(** [a || b] where [a] may be undefined. *)
Definition js_or (a : option jsstring) (b : jsstring) : jsstring :=
  match a with
  | Some s => if truthy s then s else b
  | None => b
  end.

(** WhiteSpace and LineTerminator code points of ECMAScript, the characters
    removed by [String.prototype.trim]. *)
Definition isWhiteSpace (c : N) : bool :=
  ((c =? 9) || (c =? 10) || (c =? 11) || (c =? 12) || (c =? 13) || (c =? 32)
   || (c =? 160) || (c =? 5760) || ((8192 <=? c) && (c <=? 8202))
   || (c =? 8232) || (c =? 8233) || (c =? 8239) || (c =? 8287)
   || (c =? 12288) || (c =? 65279))%N.

Fixpoint trimStart (s : jsstring) : jsstring :=
  match s with
  | [] => []
  | c :: r => if isWhiteSpace c then trimStart r else s
  end.

Definition trimEnd (s : jsstring) : jsstring := rev (trimStart (rev s)).

Definition trim (s : jsstring) : jsstring := trimEnd (trimStart s).

Definition blank (s : jsstring) : bool := forallb isWhiteSpace s.

(** A string that neither begins nor ends with white space. *)
Definition startsClean (s : jsstring) : bool :=
  match s with [] => true | c :: _ => negb (isWhiteSpace c) end.

Definition trimmed (s : jsstring) : bool := startsClean s && startsClean (rev s).

(** LineTerminator code points: what [.] does not match in a regular
    expression. *)
Definition isLineTerminator (c : N) : bool :=
  ((c =? 10) || (c =? 13) || (c =? 8232) || (c =? 8233))%N.

(** [s.indexOf(c)] for a one-character search string; -1 when absent. *)
Fixpoint indexOf (c : N) (s : jsstring) : Z :=
  match s with
  | [] => -1
  | x :: r =>
      if (x =? c)%N then 0
      else let i := indexOf c r in if i <? 0 then -1 else 1 + i
  end.

(** [s.slice(from, to)]: negative indices count from the end, and both are
    clamped to the string. *)
Definition slice (s : jsstring) (from to : Z) : jsstring :=
  let len := Z.of_nat (length s) in
  let clamp i := if i <? 0 then Z.max (len + i) 0 else Z.min i len in
  let a := clamp from in
  let b := clamp to in
  take (Z.to_nat (b - a)) (drop (Z.to_nat a) s).

(** [s.slice(from)] *)
Definition sliceFrom (s : jsstring) (from : Z) : jsstring :=
  slice s from (Z.of_nat (length s)).

(** ** Errors and promises *)

(** What the handlers read of a thrown value: [err.message] and
    [err.response?.status]. *)
Record JsError := mkError {
  err_message : option jsstring;
  err_status : option Z
}.

(** [new Error(msg)] *)
Definition Error (msg : string) : JsError :=
  {| err_message := Some (js msg); err_status := None |}.

Inductive Method := GET | POST | DELETE.

Record File := mkFile {
  file_name : jsstring;
  file_type : jsstring;
  file_bytes : list N
}.

Inductive Body :=
| NoBody
| FormData (file : File)
| JsonContent (content : jsstring).

Record Request := mkRequest {
  req_method : Method;
  req_url : jsstring;
  req_body : Body
}.

Definition Settled (A : Type) : Type := (JsError + A)%type.

(** A settled promise: the requests issued while it ran, and its outcome. *)
Definition Promise (A : Type) : Type := (list Request * Settled A)%type.

Definition resolve {A} (a : A) : Promise A := ([], inr a).
Definition throw {A} (e : JsError) : Promise A := ([], inl e).

Definition await {A B} (p : Promise A) (k : A -> Promise B) : Promise B :=
  match p with
  | (reqs, inl e) => (reqs, inl e)
  | (reqs, inr a) => let '(reqs', r) := k a in (reqs ++ reqs', r)
  end.

Definition try_catch {A} (p : Promise A) (h : JsError -> Promise A) : Promise A :=
  match p with
  | (reqs, inl e) => let '(reqs', r) := h e in (reqs ++ reqs', r)
  | (reqs, inr a) => (reqs, inr a)
  end.

Notation "'let*' x := p 'in' k" := (await p (fun x => k))
  (at level 10, x name, p at level 100, k at level 200, only parsing).

Definition requests {A} (p : Promise A) : list Request := fst p.
Definition outcome {A} (p : Promise A) : Settled A := snd p.

(** ** Domain types ([types/index.ts]) *)

(** Values of type [any]. *)
#[local] Unset Elimination Schemes.
Inductive Json :=
| JNull
| JBool (b : bool)
| JNumber (q : Q)
| JString (s : jsstring)
| JArray (items : list Json)
| JObject (fields : list (jsstring * Json)).
#[local] Set Elimination Schemes.

Record DocumentMetadata := {
  document_type : jsstring;
  parties : list jsstring;
  dates : list jsstring;
  contract_value : option jsstring;
  jurisdiction : option jsstring;
  governing_law : option jsstring
}.

Record Clause := {
  id : jsstring;
  title : jsstring;
  text : jsstring;
  clause_type : jsstring;
  clause_metadata : list (jsstring * Json);
  start_page : Z;
  end_page : Z
}.

Record DocumentAnalysis := {
  document_id : jsstring;
  document_name : jsstring;
  metadata : DocumentMetadata;
  clauses : list Clause;
  summary : option jsstring;
  processing_timestamp : jsstring;
  confidence_score : Q
}.

Record ClauseExplanation := {
  clause_id : jsstring;
  original_text : jsstring;
  explanation : jsstring;
  key_points : list jsstring;
  risks : list jsstring;
  plain_language : jsstring
}.

Inductive Role := user | assistant.

Record ChatMessage := {
  role : Role;
  content : jsstring;
  timestamp : jsstring
}.

(** [getSession] builds a [SessionData] whose [documentName] and [analysis]
    may be undefined (the object is cast), so both are optional here. *)
Record SessionData := {
  sessionId : jsstring;
  documentName : option jsstring;
  analysis : option DocumentAnalysis;
  conversationHistory : list ChatMessage
}.

(** The handler tests [response.data?.session_id], so the field may be
    missing from the body. *)
Record UploadResponse := {
  up_session_id : option jsstring;
  up_document_name : jsstring;
  up_analysis : DocumentAnalysis;
  up_message : jsstring
}.

Record ChatResponse := {
  chat_session_id : jsstring;
  chat_response : jsstring;
  chat_timestamp : jsstring
}.

Record SummaryResponse := {
  sum_session_id : jsstring;
  sum_summary : jsstring;
  sum_message : jsstring
}.

Record SessionInfo := {
  clauses_count : Json;
  info_session_id : jsstring;
  info_document_name : jsstring;
  created_at : jsstring;
  last_accessed : jsstring;
  message_count : Z
}.

Record HealthResponse := {
  health_message : jsstring;
  version : jsstring
}.

(** Body of [GET /sessions/{id}]: every level is read with [?.] or [||]. *)
Record SessionPayloadData := {
  pd_analysis : option DocumentAnalysis;
  pd_conversation_history : option (list ChatMessage)
}.

Record SessionPayload := {
  p_session_id : option jsstring;
  p_data : option SessionPayloadData
}.

(** ** The API client ([services/apiService.ts]) *)

Module ApiService.

(** A call on the axios instance: one request goes out, and the backend
    [respond]s with a body or a failure. *)
Definition api_call {T} (respond : Request -> Settled T)
    (m : Method) (url : jsstring) (b : Body) : Promise T :=
  let req := mkRequest m url b in ([req], respond req).

(** The value of the promise stands for [response.data], the only part of
    the axios response that the caller reads. *)
Definition uploadDocument (respond : Request -> Settled (option UploadResponse))
    (file : File) : Promise (option UploadResponse) :=
  let* response := api_call respond POST (js "/upload") (FormData file) in
  resolve response.

Definition explainClause (respond : Request -> Settled ClauseExplanation)
    (sessionId clauseId : jsstring) : Promise ClauseExplanation :=
  let* response := api_call respond POST
    (js "/explain/" ++ sessionId ++ js "/" ++ clauseId) NoBody in
  resolve response.

Definition summarizeDocument (respond : Request -> Settled SummaryResponse)
    (sessionId : jsstring) : Promise SummaryResponse :=
  if negb (truthy sessionId) then throw (Error "Session ID is required")
  else
    let* response := api_call respond POST (js "/summarize/" ++ sessionId) NoBody in
    resolve response.

Definition chatWithDocument (respond : Request -> Settled ChatResponse)
    (sessionId message : jsstring) : Promise ChatResponse :=
  if negb (truthy sessionId) then throw (Error "Session ID is required for chat")
  else
    try_catch
      (let* response := api_call respond POST (js "/chat/" ++ sessionId)
                     (JsonContent message) in
       resolve response)
      (fun error =>
         if bool_decide (err_status error = Some 404)
         then throw (Error "Chat session not found. Please reload the page.")
         else throw error).

Definition getSession (respond : Request -> Settled SessionPayload)
    (sessionId : jsstring) : Promise SessionData :=
  let* payload := api_call respond GET (js "/sessions/" ++ sessionId) NoBody in
  let data := p_data payload in
  resolve {|
    sessionId := js_or (p_session_id payload) sessionId;
    documentName := document_name <$> (data ≫= pd_analysis);
    analysis := data ≫= pd_analysis;
    conversationHistory :=
      match data ≫= pd_conversation_history with
      | Some h => h
      | None => []
      end
  |}.

Definition listSessions (respond : Request -> Settled (list SessionInfo))
    : Promise (list SessionInfo) :=
  let* response := api_call respond GET (js "/sessions") NoBody in
  resolve response.

Definition getHealth (respond : Request -> Settled HealthResponse)
    : Promise HealthResponse :=
  let* response := api_call respond GET (js "/") NoBody in
  resolve response.

Definition deleteSession (respond : Request -> Settled jsstring)
    (sessionId : jsstring) : Promise jsstring :=
  if negb (truthy sessionId) then throw (Error "Session ID is required")
  else
    let* response := api_call respond DELETE (js "/sessions/" ++ sessionId) NoBody in
    resolve response.

End ApiService.

(** *** Requests and errors of the calls, named for the statements below *)

(** The request a chat call sends. *)
Definition chatRequest (sessionId message : jsstring) : Request :=
  mkRequest POST (js "/chat/" ++ sessionId) (JsonContent message).

(** The request an explanation call sends. *)
Definition explainRequest (sessionId clauseId : jsstring) : Request :=
  mkRequest POST (js "/explain/" ++ sessionId ++ js "/" ++ clauseId) NoBody.


(** The request a session load sends. *)
Definition sessionRequest (sessionId : jsstring) : Request :=
  mkRequest GET (js "/sessions/" ++ sessionId) NoBody.

(** The request an upload sends. *)
Definition uploadRequest (file : File) : Request :=
  mkRequest POST (js "/upload") (FormData file).

(** A rejected chat call rethrows the error, except for status 404. *)
Definition chatError (e : JsError) : JsError :=
  if bool_decide (err_status e = Some 404)
  then Error "Chat session not found. Please reload the page."
  else e.

(** ** The top-level coordinator ([App.tsx]) *)

Module App.

Record State := mkState {
  currentTab : Z;
  sessionData : option SessionData;
  loading : bool;
  error : option jsstring;
  success : option jsstring;
  documentAnalysis : option DocumentAnalysis
}.

Definition initial : State :=
  mkState 0 None false None None None.

Definition setCurrentTab (v : Z) (st : State) : State :=
  mkState v (sessionData st) (loading st) (error st) (success st)
          (documentAnalysis st).
Definition setSessionData (v : option SessionData) (st : State) : State :=
  mkState (currentTab st) v (loading st) (error st) (success st)
          (documentAnalysis st).
Definition setLoading (v : bool) (st : State) : State :=
  mkState (currentTab st) (sessionData st) v (error st) (success st)
          (documentAnalysis st).
Definition setError (v : option jsstring) (st : State) : State :=
  mkState (currentTab st) (sessionData st) (loading st) v (success st)
          (documentAnalysis st).
Definition setSuccess (v : option jsstring) (st : State) : State :=
  mkState (currentTab st) (sessionData st) (loading st) (error st) v
          (documentAnalysis st).
Definition setDocumentAnalysis (v : option DocumentAnalysis) (st : State) : State :=
  mkState (currentTab st) (sessionData st) (loading st) (error st)
          (success st) v.

Definition handleTabChange (tabIdx : Z) (st : State) : State :=
  setCurrentTab tabIdx st.

(** [response.data?.session_id] when it is truthy. *)
Definition session_id_of (data : option UploadResponse) : option jsstring :=
  match data ≫= up_session_id with
  | Some sid => if truthy sid then Some sid else None
  | None => None
  end.

(** The [try] block: the upload and the setters it runs when it does not
    throw. *)
Definition upload_try (respond : Request -> Settled (option UploadResponse))
    (file : File) : Promise (State -> State) :=
  let* response := ApiService.uploadDocument respond file in
  match response, session_id_of response with
  | Some data, Some sid =>
      let newSessionData := {|
        sessionId := sid;
        documentName := Some (up_document_name data);
        analysis := Some (up_analysis data);
        conversationHistory := []
      |} in
      resolve (fun st =>
        setCurrentTab 1
          (setSuccess (Some (js "Document uploaded and processed successfully!"))
            (setDocumentAnalysis (Some (up_analysis data))
              (setSessionData (Some newSessionData) st))))
  | _, _ => throw (Error "Invalid response: missing session ID")
  end.

Definition handleDocumentUpload
    (respond : Request -> Settled (option UploadResponse))
    (file : File) (st : State) : State * list Request :=
  let st := setLoading true st in
  let st := setError None st in
  match upload_try respond file with
  | (reqs, inr setters) => (setLoading false (setters st), reqs)
  | (reqs, inl err) =>
      let st := setError
        (Some (js_or (err_message err) (js "Failed to upload document"))) st in
      let st := setSessionData None st in
      let st := setDocumentAnalysis None st in
      (setLoading false st, reqs)
  end.

Definition handleSessionLoad (session : SessionData) (st : State) : State :=
  setCurrentTab 1
    (setDocumentAnalysis (analysis session)
      (setSessionData (Some session) st)).

(** *** The two halves of the upload handler *)

Definition uploadBegin (st : State) : State :=
  setError None (setLoading true st).

Definition uploadSettle (r : Settled (State -> State)) (st : State) : State :=
  match r with
  | inr setters => setLoading false (setters st)
  | inl err =>
      let st := setError
        (Some (js_or (err_message err) (js "Failed to upload document"))) st in
      let st := setSessionData None st in
      let st := setDocumentAnalysis None st in
      setLoading false st
  end.

(** *** What [App] renders *)

Inductive Tab := UploadTab | AnalysisTab | AssistantTab.

(** The argument of [handleTabChange] in each nav button. *)
Definition tabIndex (t : Tab) : Z :=
  match t with UploadTab => 0 | AnalysisTab => 1 | AssistantTab => 2 end.

(** The [disabled] attribute of each nav button. *)
Definition tabDisabled (t : Tab) (st : State) : bool :=
  match t with
  | UploadTab => false
  | AnalysisTab | AssistantTab =>
      match documentAnalysis st with Some _ => false | None => true end
  end.

(** The children of [<main>]. *)
Inductive Child :=
| UploadView (loading : bool)
| AnalysisView (sessionData : SessionData) (documentAnalysis : DocumentAnalysis)
| ChatView (sessionData : SessionData)
| ErrorAlert (msg : jsstring)
| SuccessAlert (msg : jsstring).

Definition alert (mk : jsstring -> Child) (msg : option jsstring) : list Child :=
  match msg with
  | Some m => if truthy m then [mk m] else []
  | None => []
  end.

Definition main (st : State) : list Child :=
  (if currentTab st =? 0 then [UploadView (loading st)] else [])
  ++ (if currentTab st =? 1
      then match documentAnalysis st, sessionData st with
           | Some da, Some sd => [AnalysisView sd da]
           | _, _ => []
           end
      else [])
  ++ (if currentTab st =? 2
      then match documentAnalysis st, sessionData st with
           | Some _, Some sd => [ChatView sd]
           | _, _ => []
           end
      else [])
  ++ alert ErrorAlert (error st)
  ++ alert SuccessAlert (success st).

(** *** What can happen to the coordinator

    A click on a nav button (ignored while the button is disabled), either
    half of an upload, a session handed over by the upload view, and a
    session handed over by the chat view.  The halves of different handlers
    may come in any order. *)
Inductive Event :=
| TabClick (t : Tab)
| UploadBegins
| UploadSettles (respond : Request -> Settled (option UploadResponse)) (file : File)
| SessionLoaded (session : SessionData)
| SessionUpdated (session : SessionData).

(** The setters an upload can resolve with: those of [upload_try]. *)
Definition uploadOutcome (respond : Request -> Settled (option UploadResponse))
    (file : File) : Settled (State -> State) :=
  outcome (upload_try respond file).

Definition step (st : State) (ev : Event) : State :=
  match ev with
  | TabClick t => if tabDisabled t st then st else handleTabChange (tabIndex t) st
  | UploadBegins => uploadBegin st
  | UploadSettles respond file => uploadSettle (uploadOutcome respond file) st
  | SessionLoaded session => handleSessionLoad session st
  | SessionUpdated session => setSessionData (Some session) st
  end.

Definition run (evs : list Event) (st : State) : State := fold_left step evs st.

(** Whenever an analysis is held a session is held, and the tab is one of
    the three. *)
Definition coordinator_ok (st : State) : Prop :=
  (is_Some (documentAnalysis st) -> is_Some (sessionData st))
  /\ (currentTab st = 0 \/ currentTab st = 1 \/ currentTab st = 2).

End App.

(** ** The upload view ([components/DocumentUpload.tsx]) *)

Module DocumentUpload.

Record State := mkState { sessions : list SessionInfo }.

Definition loadSessions (respond : Request -> Settled (list SessionInfo))
    (st : State) : State * list Request :=
  match ApiService.listSessions respond with
  | (reqs, inr sessionList) => (mkState sessionList, reqs)
  | (reqs, inl _) => (st, reqs)
  end.

(** [loadSession] hands the session to the coordinator's [onSessionLoad];
    the result is the coordinator's state after the callback, if called. *)
Definition loadSession (respond : Request -> Settled SessionPayload)
    (sessionId : jsstring) (app : App.State) : App.State * list Request :=
  match ApiService.getSession respond sessionId with
  | (reqs, inr sessionData) => (App.handleSessionLoad sessionData app, reqs)
  | (reqs, inl _) => (app, reqs)
  end.

(** [onDrop]: only [acceptedFiles[0]] is handed to [onUpload]. *)
Definition onDrop (respond : Request -> Settled (option UploadResponse))
    (acceptedFiles : list File) (app : App.State) : App.State * list Request :=
  match acceptedFiles with
  | file :: _ => App.handleDocumentUpload respond file app
  | [] => (app, [])
  end.

End DocumentUpload.

(** ** The chat view ([components/ChatInterface.tsx]) *)

Module ChatInterface.

Record State := mkState {
  message : jsstring;
  messages : list ChatMessage;
  loading : bool;
  error : option jsstring
}.

Definition setMessage (v : jsstring) (st : State) : State :=
  mkState v (messages st) (loading st) (error st).
Definition setMessages (v : list ChatMessage) (st : State) : State :=
  mkState (message st) v (loading st) (error st).
Definition setLoading (v : bool) (st : State) : State :=
  mkState (message st) (messages st) v (error st).
Definition setError (v : option jsstring) (st : State) : State :=
  mkState (message st) (messages st) (loading st) v.

(** The [useState] initial values. *)
Definition initial (sessionData : SessionData) : State :=
  mkState [] (conversationHistory sessionData) false None.

(** The effect that depends on [sessionData]. *)
Definition sessionEffect (sessionData : SessionData) (st : State) : State :=
  if negb (truthy (sessionId sessionData))
  then setError (Some (js "Session ID is not available. Please reload the page.")) st
  else setError None (setMessages (conversationHistory sessionData) st).

(** What a handler leaves behind: the view's state, the session passed to
    [onSessionUpdate] if it was called, and the requests issued. *)
Record Result := mkResult {
  view : State;
  sessionUpdate : option SessionData;
  sent : list Request
}.

(** The user's message as built from the composer at time [now]. *)
Definition userMessageOf (now : jsstring) (st : State) : ChatMessage :=
  {| role := user; content := trim (message st); timestamp := now |}.

(** The state while the chat request is awaited. *)
Definition optimistic (now : jsstring) (st : State) : State :=
  let newMessages := messages st ++ [userMessageOf now st] in
  setError None (setLoading true (setMessage [] (setMessages newMessages st))).

Definition handleSendMessage (now : jsstring)
    (respond : Request -> Settled ChatResponse)
    (sessionData : SessionData) (st : State) : Result :=
  if negb (truthy (trim (message st))) || loading st
  then mkResult st None []
  else if negb (truthy (sessionId sessionData))
  then mkResult
         (setError (Some (js "Session ID is not available. Please reload the page.")) st)
         None []
  else
    let userMessage := userMessageOf now st in
    let newMessages := messages st ++ [userMessage] in
    let st1 := optimistic now st in
    match ApiService.chatWithDocument respond (sessionId sessionData)
            (content userMessage) with
    | (reqs, inr response) =>
        let assistantMessage := {|
          role := assistant;
          content := chat_response response;
          timestamp := chat_timestamp response
        |} in
        let updatedMessages := newMessages ++ [assistantMessage] in
        let updatedSession := {|
          sessionId := sessionId sessionData;
          documentName := documentName sessionData;
          analysis := analysis sessionData;
          conversationHistory := updatedMessages
        |} in
        mkResult (setLoading false (setMessages updatedMessages st1))
                 (Some updatedSession) reqs
    | (reqs, inl err) =>
        let st2 := setError
          (Some (js_or (err_message err) (js "Failed to send message"))) st1 in
        mkResult (setLoading false (setMessages (messages st) st2)) None reqs
    end.

Definition clearConversation (st : State) : Result :=
  mkResult (setError None (setMessages [] st)) None [].

(** [handleKeyPress]: whether [preventDefault] was called, and what the send
    handler left behind when it was invoked. *)
Definition handleKeyPress (now : jsstring)
    (respond : Request -> Settled ChatResponse) (sessionData : SessionData)
    (key : jsstring) (shiftKey : bool) (st : State) : bool * Result :=
  if bool_decide (key = js "Enter") && negb shiftKey
  then (true, handleSendMessage now respond sessionData st)
  else (false, mkResult st None []).

(** The [disabled] attribute of the Send button. *)
Definition sendDisabled (st : State) : bool :=
  loading st || negb (truthy (trim (message st))).


End ChatInterface.

(** ** The analysis view (the [DocumentAnalysis] component) *)

Module DocumentAnalysisView.

Record State := mkState {
  expandedClause : option jsstring;
  clauseExplanations : gmap jsstring ClauseExplanation;
  loadingExplanations : gset jsstring;
  documentSummary : option jsstring;
  loadingSummary : bool;
  error : option jsstring
}.

Definition initial : State := mkState None ∅ ∅ None false None.

Definition setExpandedClause (v : option jsstring) (st : State) : State :=
  mkState v (clauseExplanations st) (loadingExplanations st)
          (documentSummary st) (loadingSummary st) (error st).
Definition setClauseExplanations (v : gmap jsstring ClauseExplanation)
    (st : State) : State :=
  mkState (expandedClause st) v (loadingExplanations st)
          (documentSummary st) (loadingSummary st) (error st).
Definition setLoadingExplanations (v : gset jsstring) (st : State) : State :=
  mkState (expandedClause st) (clauseExplanations st) v
          (documentSummary st) (loadingSummary st) (error st).
Definition setDocumentSummary (v : option jsstring) (st : State) : State :=
  mkState (expandedClause st) (clauseExplanations st) (loadingExplanations st)
          v (loadingSummary st) (error st).
Definition setLoadingSummary (v : bool) (st : State) : State :=
  mkState (expandedClause st) (clauseExplanations st) (loadingExplanations st)
          (documentSummary st) v (error st).
Definition setError (v : option jsstring) (st : State) : State :=
  mkState (expandedClause st) (clauseExplanations st) (loadingExplanations st)
          (documentSummary st) (loadingSummary st) v.

Definition sessionEffect (sessionData : SessionData) (st : State) : State :=
  if negb (truthy (sessionId sessionData))
  then setError (Some (js "Invalid session: No session ID available")) st
  else setError None st.

(** [clauseExplanations] is a plain object: a key that names a member of
    [Object.prototype] reads as a truthy value even when it was never
    stored. *)
Definition inherited : list jsstring :=
  List.map js
    ["constructor"; "toString"; "toLocaleString"; "valueOf"; "hasOwnProperty";
     "isPrototypeOf"; "propertyIsEnumerable"; "__proto__";
     "__defineGetter__"; "__defineSetter__"; "__lookupGetter__";
     "__lookupSetter__"]%string.

(** Truthiness of [clauseExplanations[clauseId]]. *)
Definition hasExplanation (st : State) (clauseId : jsstring) : bool :=
  bool_decide (is_Some (clauseExplanations st !! clauseId))
  || bool_decide (clauseId ∈ inherited).

(** [handleClauseExpand] up to its [await]: the state after the setters,
    and whether the explanation request goes out. *)
Definition expandSync (clauseId : jsstring) (st : State) : State * bool :=
  let isExpanded := bool_decide (expandedClause st = Some clauseId) in
  let st1 := setExpandedClause (if isExpanded then None else Some clauseId) st in
  if negb (hasExplanation st clauseId) && negb isExpanded
  then (setLoadingExplanations ({[clauseId]} ∪ loadingExplanations st1) st1, true)
  else (st1, false).

(** [handleClauseExpand] after its [await], run on the state current when
    the request settles: the functional updates of the [try] and [finally]
    blocks. *)
Definition expandSettle (clauseId : jsstring) (r : Settled ClauseExplanation)
    (st : State) : State :=
  let st1 :=
    match r with
    | inr explanation =>
        setClauseExplanations (<[clauseId := explanation]> (clauseExplanations st)) st
    | inl _ => st
    end in
  setLoadingExplanations (loadingExplanations st1 ∖ {[clauseId]}) st1.

(** The handler run to completion with nothing in between. *)
Definition handleClauseExpand (respond : Request -> Settled ClauseExplanation)
    (sessionData : SessionData) (clauseId : jsstring) (st : State)
    : State * list Request :=
  match expandSync clauseId st with
  | (st1, true) =>
      let '(reqs, r) :=
        ApiService.explainClause respond (sessionId sessionData) clauseId in
      (expandSettle clauseId r st1, reqs)
  | (st1, false) => (st1, [])
  end.

Definition summarySync (sessionData : SessionData) (st : State) : State * bool :=
  if negb (truthy (sessionId sessionData)) then (st, false)
  else (setLoadingSummary true st, true).

Definition summarySettle (r : Settled SummaryResponse) (st : State) : State :=
  let st1 :=
    match r with
    | inr response => setDocumentSummary (Some (sum_summary response)) st
    | inl _ =>
        setDocumentSummary
          (Some (js "Failed to generate summary. Please try again.")) st
    end in
  setLoadingSummary false st1.

Definition handleGenerateSummary (respond : Request -> Settled SummaryResponse)
    (sessionData : SessionData) (st : State) : State * list Request :=
  match summarySync sessionData st with
  | (st1, true) =>
      let '(reqs, r) :=
        ApiService.summarizeDocument respond (sessionId sessionData) in
      (summarySettle r st1, reqs)
  | (st1, false) => (st1, [])
  end.

(** *** Rendering helpers *)

(** The clause text as shown: the first 1200 code units and a marker when
    the text is longer. *)
Definition displayText (text : jsstring) : jsstring :=
  if (1200 <? length text)%nat
  then slice text 0 1200 ++ (10%N :: js "... [truncated]")
  else text.

Definition isBullet (c : N) : bool :=
  ((c =? 45) || (c =? 42) || (c =? 8226))%N.

(** [text.replace(/^[-*•]\s+/, "")]: a leading bullet and the white space
    after it, when there is some. *)
Definition stripBullet (text : jsstring) : jsstring :=
  match text with
  | b :: w :: r => if isBullet b && isWhiteSpace w then trimStart r else text
  | _ => text
  end.

(** Whether [(.*?)\*\*] matches at the start of [s]: a pair of asterisks
    comes before any line terminator. *)
Fixpoint closes (s : jsstring) : bool :=
  match s with
  | [] => false
  | c :: t =>
      match t with
      | c2 :: _ =>
          if ((c =? 42) && (c2 =? 42))%N then true
          else if isLineTerminator c then false
          else closes t
      | [] => false
      end
  end.

(** [t.replace(/\*\*(.*?)\*\*/g, "$1")], scanning from the left: [inside]
    holds between an opening pair that has a closing pair and that closing
    pair. *)
Fixpoint unbold (inside : bool) (s : jsstring) : jsstring :=
  match s with
  | [] => []
  | c :: t =>
      match t with
      | c2 :: r =>
          if ((c =? 42) && (c2 =? 42))%N then
            if inside then unbold false r
            else if closes r then unbold true r
            else c :: unbold false t
          else c :: unbold inside t
      | [] => [c]
      end
  end.

Definition cleanMarkdown (text : jsstring) : jsstring :=
  let t := stripBullet text in
  let t := unbold false t in
  trim t.

(** What [renderPoint] returns: a title and a description, or the cleaned
    text alone. *)
Inductive Point :=
| Titled (title desc : jsstring)
| Plain (cleaned : jsstring).

Definition renderPoint (text : jsstring) : Point :=
  let cleaned := cleanMarkdown text in
  let idx := indexOf 58 cleaned in
  if (0 <? idx) && (idx <? Z.of_nat (length cleaned) - 1)
  then
    let title := trim (slice cleaned 0 idx) in
    let desc := trim (sliceFrom cleaned (idx + 1)) in
    Titled title desc
  else Plain cleaned.

(** *** The view with its outstanding requests

    Between the two halves of a handler the user can click again and other
    requests can settle.  A request in flight is the promise of the API
    call, kept with the clause id its handler closed over, until it is
    delivered. *)

Record World := mkWorld {
  ui : State;
  inflight : list (jsstring * Promise ClauseExplanation);
  summaries : list (Promise SummaryResponse);
  sentLog : list Request
}.

Inductive Event :=
| Click (clauseId : jsstring) (respond : Request -> Settled ClauseExplanation)
| Deliver (n : nat)
| ClickSummary (respond : Request -> Settled SummaryResponse)
| DeliverSummary (n : nat).

Definition start : World := mkWorld initial [] [] [].

Definition step (sessionData : SessionData) (w : World) (ev : Event) : World :=
  match ev with
  | Click clauseId respond =>
      match expandSync clauseId (ui w) with
      | (st, true) =>
          let p := ApiService.explainClause respond (sessionId sessionData) clauseId in
          mkWorld st (inflight w ++ [(clauseId, p)]) (summaries w)
                  (sentLog w ++ requests p)
      | (st, false) => mkWorld st (inflight w) (summaries w) (sentLog w)
      end
  | Deliver n =>
      match inflight w !! n with
      | Some (clauseId, p) =>
          mkWorld (expandSettle clauseId (outcome p) (ui w))
                  (delete n (inflight w)) (summaries w) (sentLog w)
      | None => w
      end
  | ClickSummary respond =>
      (* the button is disabled while a summary is loading *)
      if loadingSummary (ui w) then w
      else
        match summarySync sessionData (ui w) with
        | (st, true) =>
            let p := ApiService.summarizeDocument respond (sessionId sessionData) in
            mkWorld st (inflight w) (summaries w ++ [p]) (sentLog w ++ requests p)
        | (st, false) => mkWorld st (inflight w) (summaries w) (sentLog w)
        end
  | DeliverSummary n =>
      match summaries w !! n with
      | Some p =>
          mkWorld (summarySettle (outcome p) (ui w)) (inflight w)
                  (delete n (summaries w)) (sentLog w)
      | None => w
      end
  end.

(** The events of one mounted view while its [sessionData] prop stays the
    same.  [Page] below puts the view under [App], which can replace the
    session under the mounted view and unmount it. *)
Definition run (sessionData : SessionData) (evs : list Event) (w : World) : World :=
  fold_left (step sessionData) evs w.

Definition reachable (sessionData : SessionData) (w : World) : Prop :=
  exists evs, w = run sessionData evs start.

(** Number of explanation requests outstanding for a clause. *)
Definition pendingFor (clauseId : jsstring) (w : World) : nat :=
  length (filter (fun e => fst e = clauseId) (inflight w)).



(** Every clause id in the pending set has a request in flight. *)
Definition pending_backed (w : World) : Prop :=
  forall c, c ∈ loadingExplanations (ui w) -> (1 <= pendingFor c w)%nat.

End DocumentAnalysisView.


(** ** The component tree ([App.tsx], the JSX of [App]) *)

Module Tree.

(** [ChatInterface] receives [setSessionData] as [onSessionUpdate]: the
    coordinator's state after a chat handler has run. *)
Definition afterChat (r : ChatInterface.Result) (app : App.State) : App.State :=
  match ChatInterface.sessionUpdate r with
  | Some session => App.setSessionData (Some session) app
  | None => app
  end.

End Tree.

(** ** The analysis view under the coordinator ([App.tsx], l.89-94)

    [App] renders [DocumentAnalysis] only on tab 1 and only with an analysis
    and a session.  When an event of the coordinator makes that condition
    false the view is unmounted and its state is lost; when it makes it true
    again a new view is mounted from the initial state.  While the view
    stays mounted its state is kept, also when the coordinator replaces the
    session.  What a request of an unmounted view settles with is
    discarded. *)

Module Page.

Record State := mkState {
  app : App.State;
  mounted : option DocumentAnalysisView.World;
  (** requests sent by the views unmounted so far *)
  archived : list Request
}.

Definition start : State := mkState App.initial None [].

(** The props [DocumentAnalysis] is rendered with, when it is rendered. *)
Definition analysisProps (a : App.State) : option (SessionData * DocumentAnalysis) :=
  if App.currentTab a =? 1
  then match App.documentAnalysis a, App.sessionData a with
       | Some da, Some sd => Some (sd, da)
       | _, _ => None
       end
  else None.

(** A view just mounted: the initial state, then the session effect. *)
Definition mount (sessionData : SessionData) : DocumentAnalysisView.World :=
  DocumentAnalysisView.mkWorld
    (DocumentAnalysisView.sessionEffect sessionData DocumentAnalysisView.initial)
    [] [] [].

(** A mounted view given a new session: the state is kept and the session
    effect runs. *)
Definition rerender (sessionData : SessionData) (w : DocumentAnalysisView.World)
    : DocumentAnalysisView.World :=
  DocumentAnalysisView.mkWorld
    (DocumentAnalysisView.sessionEffect sessionData (DocumentAnalysisView.ui w))
    (DocumentAnalysisView.inflight w) (DocumentAnalysisView.summaries w)
    (DocumentAnalysisView.sentLog w).

(** The events of the coordinator that call [setSessionData]. *)
Definition changesSession (ev : App.Event) : bool :=
  match ev with
  | App.UploadSettles _ _ | App.SessionLoaded _ | App.SessionUpdated _ => true
  | App.TabClick _ | App.UploadBegins => false
  end.

Inductive Event :=
| OfApp (ev : App.Event)
| OfView (ev : DocumentAnalysisView.Event).

Definition step (p : State) (ev : Event) : State :=
  match ev with
  | OfView e =>
      match analysisProps (app p), mounted p with
      | Some (sessionData, _), Some w =>
          mkState (app p) (Some (DocumentAnalysisView.step sessionData w e))
                  (archived p)
      | _, _ => p
      end
  | OfApp e =>
      let a := App.step (app p) e in
      match analysisProps a, mounted p with
      | Some (sessionData, _), Some w =>
          mkState a (Some (if changesSession e then rerender sessionData w else w))
                  (archived p)
      | Some (sessionData, _), None => mkState a (Some (mount sessionData)) (archived p)
      | None, Some w =>
          mkState a None (archived p ++ DocumentAnalysisView.sentLog w)
      | None, None => mkState a None (archived p)
      end
  end.

Definition run (evs : list Event) (p : State) : State := fold_left step evs p.

(** Every request the analysis views have sent, mounted or not. *)
Definition log (p : State) : list Request :=
  archived p
  ++ match mounted p with
     | Some w => DocumentAnalysisView.sentLog w
     | None => []
     end.

(** The view is mounted after each of the events. *)
Fixpoint mountedThrough (evs : list Event) (p : State) : bool :=
  match evs with
  | [] => true
  | ev :: evs =>
      match mounted (step p ev) with
      | Some _ => mountedThrough evs (step p ev)
      | None => false
      end
  end.

End Page.

(** ** Sample data used by the examples *)

Module Sample.

Definition lease : DocumentAnalysis := {|
  document_id := js "d1";
  document_name := js "Lease.pdf";
  metadata := {|
    document_type := js "lease_agreement";
    parties := [js "Landlord"; js "Tenant"];
    dates := [];
    contract_value := None;
    jurisdiction := None;
    governing_law := None
  |};
  clauses := [];
  summary := None;
  processing_timestamp := js "2024-01-01T00:00:00Z";
  confidence_score := (9 # 10)%Q
|}.

Definition hello : ChatMessage :=
  {| role := user; content := js "Hi"; timestamp := js "t0" |}.

Definition session : SessionData := {|
  sessionId := js "s1";
  documentName := Some (js "Lease.pdf");
  analysis := Some lease;
  conversationHistory := [hello]
|}.

Definition file : File :=
  mkFile (js "Lease.pdf") (js "application/pdf") [37; 80; 68; 70]%N.

(** A coordinator that holds [session] and shows its analysis. *)
Definition app : App.State :=
  App.mkState 1 (Some session) false None None (Some lease).

(** An upload answered with a body that has no [session_id]. *)
Definition noSessionId : UploadResponse := {|
  up_session_id := None;
  up_document_name := js "Lease.pdf";
  up_analysis := lease;
  up_message := js "ok"
|}.

Definition networkError : JsError :=
  mkError (Some (js "Network Error")) None.

Definition notFound : JsError :=
  mkError (Some (js "Request failed with status code 404")) (Some 404).

Definition reply : ChatResponse := {|
  chat_session_id := js "s1";
  chat_response := js "It is a lease.";
  chat_timestamp := js "t2"
|}.

Definition explained : ClauseExplanation := {|
  clause_id := js "c1";
  original_text := js "The tenant shall pay rent.";
  explanation := js "Rent is due.";
  key_points := [];
  risks := [];
  plain_language := js "Pay the rent."
|}.

(** A chat view holding [session]'s history with a question typed in. *)
Definition composing : ChatInterface.State :=
  ChatInterface.mkState (js "  What is this?  ") [hello] false None.

(** The same view with only spaces typed in. *)
Definition spaces : ChatInterface.State :=
  ChatInterface.mkState (js "  ") [hello] false None.

Definition c1 : jsstring := js "c1".

Definition explains : Request -> Settled ClauseExplanation :=
  fun _ => inr explained.

(** Expand a clause, collapse it and expand it again before the first
    request has settled. *)
Definition reopened : list DocumentAnalysisView.Event :=
  [DocumentAnalysisView.Click c1 explains;
   DocumentAnalysisView.Click c1 explains;
   DocumentAnalysisView.Click c1 explains].

(** The view after one click on [c1], its request still in flight. *)
Definition fetching : DocumentAnalysisView.World :=
  DocumentAnalysisView.run session [DocumentAnalysisView.Click c1 explains]
    DocumentAnalysisView.start.

(** An upload answered with a session identifier. *)
Definition okUpload : UploadResponse := {|
  up_session_id := Some (js "s2");
  up_document_name := js "Nda.docx";
  up_analysis := lease;
  up_message := js "ok"
|}.

(** An upload from start to end. *)
Definition uploads : list App.Event :=
  [App.UploadBegins; App.UploadSettles (fun _ => inr (Some okUpload)) file].

(** An analysis with one clause, and an upload answered with it. *)
Definition rentClause : Clause := {|
  id := c1;
  title := js "Rent";
  text := js "The tenant shall pay rent.";
  clause_type := js "payment";
  clause_metadata := [];
  start_page := 1;
  end_page := 1
|}.

Definition leaseWithClause : DocumentAnalysis := {|
  document_id := js "d2";
  document_name := js "Lease.pdf";
  metadata := metadata lease;
  clauses := [rentClause];
  summary := None;
  processing_timestamp := js "2024-01-01T00:00:00Z";
  confidence_score := (9 # 10)%Q
|}.

Definition clauseUpload : UploadResponse := {|
  up_session_id := Some (js "s2");
  up_document_name := js "Lease.pdf";
  up_analysis := leaseWithClause;
  up_message := js "ok"
|}.

(** The session that upload creates. *)
Definition uploadedSession : SessionData := {|
  sessionId := js "s2";
  documentName := Some (js "Lease.pdf");
  analysis := Some leaseWithClause;
  conversationHistory := []
|}.

(** The page after that upload, with the analysis view just mounted. *)
Definition uploadedPage : list Page.Event :=
  [Page.OfApp App.UploadBegins;
   Page.OfApp (App.UploadSettles (fun _ => inr (Some clauseUpload)) file)].

(** Then the clause expanded, its request still in flight. *)
Definition fetchingPage : Page.State :=
  Page.run (uploadedPage ++ [Page.OfView (DocumentAnalysisView.Click c1 explains)])
    Page.start.

(** Then its explanation delivered. *)
Definition explainedPage : Page.State :=
  Page.step fetchingPage (Page.OfView (DocumentAnalysisView.Deliver 0)).

(** To the upload tab and back to the analysis tab. *)
Definition awayAndBack : list Page.Event :=
  [Page.OfApp (App.TabClick App.UploadTab);
   Page.OfApp (App.TabClick App.AnalysisTab)].

Definition other : File :=
  mkFile (js "Other.pdf") (js "application/pdf") [37; 80]%N.

(** A session without identifier. *)
Definition orphan : SessionData := {|
  sessionId := [];
  documentName := None;
  analysis := None;
  conversationHistory := []
|}.



End Sample.

(** * Properties *)

(** ** Strings *)

Lemma js_or_truthy (a : option jsstring) (b : jsstring) :
  truthy b = true -> truthy (js_or a b) = true.
Proof.
  intros Hb. unfold js_or. destruct a as [s|]; [|exact Hb].
  destruct (truthy s) eqn:Hs; [exact Hs | exact Hb].
Qed.

Lemma trimStart_blank (s : jsstring) : trimStart s = [] <-> blank s = true.
Proof.
  induction s as [|c r IH]; simpl; [tauto|].
  destruct (isWhiteSpace c); simpl; [exact IH|].
  split; discriminate.
Qed.

Lemma blank_rev (s : jsstring) : blank (rev s) = blank s.
Proof.
  unfold blank. induction s as [|c r IH]; [reflexivity|].
  simpl. rewrite forallb_app, IH. simpl.
  destruct (isWhiteSpace c), (forallb isWhiteSpace r); reflexivity.
Qed.

(** What [trimStart] leaves is empty or begins with a character that is not
    white space. *)
Lemma trimStart_blank_nil (s : jsstring) :
  blank (trimStart s) = true -> trimStart s = [].
Proof.
  induction s as [|c r IH]; simpl; [reflexivity|].
  destruct (isWhiteSpace c) eqn:Hc; [exact IH|].
  simpl. rewrite Hc. discriminate.
Qed.

(** [trim] yields the empty string exactly on the strings made of white
    space only. *)
Lemma trim_blank (s : jsstring) : trim s = [] <-> blank s = true.
Proof.
  unfold trim, trimEnd. split.
  - intros H. apply (f_equal (@rev N)) in H. rewrite rev_involutive in H.
    simpl in H. apply trimStart_blank in H. rewrite blank_rev in H.
    apply trimStart_blank. apply trimStart_blank_nil. exact H.
  - intros H. apply trimStart_blank in H. rewrite H. reflexivity.
Qed.

Lemma trim_truthy (s : jsstring) : truthy (trim s) = negb (blank s).
Proof.
  destruct (blank s) eqn:Hb.
  - apply trim_blank in Hb. rewrite Hb. reflexivity.
  - destruct (trim s) eqn:Ht; [|reflexivity].
    apply trim_blank in Ht. congruence.
Qed.

(** ** The API client *)

Lemma chatWithDocument_resolved respond sessionId message r :
  truthy sessionId = true ->
  respond (chatRequest sessionId message) = inr r ->
  ApiService.chatWithDocument respond sessionId message
  = ([chatRequest sessionId message], inr r).
Proof.
  intros Hs Hr. unfold ApiService.chatWithDocument. rewrite Hs.
  unfold ApiService.api_call, await, try_catch, resolve; cbn [negb].
  fold (chatRequest sessionId message). rewrite Hr. reflexivity.
Qed.

Lemma chatWithDocument_rejected respond sessionId message e :
  truthy sessionId = true ->
  respond (chatRequest sessionId message) = inl e ->
  ApiService.chatWithDocument respond sessionId message
  = ([chatRequest sessionId message], inl (chatError e)).
Proof.
  intros Hs Hr. unfold ApiService.chatWithDocument, chatError. rewrite Hs.
  unfold ApiService.api_call, await, try_catch, resolve, throw; cbn [negb].
  fold (chatRequest sessionId message). rewrite Hr.
  destruct (bool_decide (err_status e = Some 404)); reflexivity.
Qed.

(** ** The chat view *)

Section ChatSend.

Import ChatInterface.

Variable now : jsstring.
Variable respond : Request -> Settled ChatResponse.
Variable sessionData : SessionData.
Variable st : State.

(** The send goes through: the composer is not blank, no send is in
    flight and the session has an identifier. *)
Hypothesis composed : blank (message st) = false.
Hypothesis idle : loading st = false.
Hypothesis has_session : truthy (sessionId sessionData) = true.

Let request := chatRequest (sessionId sessionData) (trim (message st)).

Lemma handleSendMessage_resolved (r : ChatResponse) :
  respond request = inr r ->
  handleSendMessage now respond sessionData st
  = let updatedMessages :=
      (messages st ++ [userMessageOf now st])
      ++ [{| role := assistant; content := chat_response r;
             timestamp := chat_timestamp r |}] in
    mkResult (mkState [] updatedMessages false None)
      (Some {| sessionId := sessionId sessionData;
               documentName := documentName sessionData;
               analysis := analysis sessionData;
               conversationHistory := updatedMessages |})
      [request].
Proof.
  intros Hr. unfold handleSendMessage.
  rewrite trim_truthy, composed, idle, has_session. cbn [negb orb].
  cbn [content userMessageOf].
  rewrite (chatWithDocument_resolved respond _ _ r has_session Hr).
  reflexivity.
Qed.

Lemma handleSendMessage_rejected (e : JsError) :
  respond request = inl e ->
  handleSendMessage now respond sessionData st
  = mkResult
      (mkState [] (messages st) false
         (Some (js_or (err_message (chatError e)) (js "Failed to send message"))))
      None [request].
Proof.
  intros Hr. unfold handleSendMessage.
  rewrite trim_truthy, composed, idle, has_session. cbn [negb orb].
  cbn [content userMessageOf].
  rewrite (chatWithDocument_rejected respond _ _ e has_session Hr).
  reflexivity.
Qed.

End ChatSend.

(** C3: when the chat request is answered with HTTP 404, the API call is
    rejected with the error "Chat session not found. Please reload the page.",
    the view shows exactly that message, the history is the one from before
    the send (no assistant message is added) and the session is not updated. *)
Theorem chat_404_session_not_found
    (now : jsstring) (respond : Request -> Settled ChatResponse)
    (sessionData : SessionData) (st : ChatInterface.State) (e : JsError) :
  blank (ChatInterface.message st) = false ->
  ChatInterface.loading st = false ->
  truthy (sessionId sessionData) = true ->
  respond (chatRequest (sessionId sessionData) (trim (ChatInterface.message st)))
    = inl e ->
  err_status e = Some 404 ->
  let r := ChatInterface.handleSendMessage now respond sessionData st in
  outcome (ApiService.chatWithDocument respond (sessionId sessionData)
             (trim (ChatInterface.message st)))
    = inl (Error "Chat session not found. Please reload the page.")
  /\ ChatInterface.error (ChatInterface.view r)
     = Some (js "Chat session not found. Please reload the page.")
  /\ ChatInterface.messages (ChatInterface.view r) = ChatInterface.messages st
  /\ ChatInterface.sessionUpdate r = None.
Proof.
  intros Hc Hl Hs Hr H404 r. subst r.
  rewrite (handleSendMessage_rejected now respond sessionData st Hc Hl Hs e Hr).
  rewrite (chatWithDocument_rejected respond _ _ e Hs Hr).
  unfold chatError. rewrite bool_decide_eq_true_2 by exact H404.
  repeat split.
Qed.

Lemma chat_404_session_not_found_witness :
  blank (ChatInterface.message Sample.composing) = false
  /\ ChatInterface.error
       (ChatInterface.view
          (ChatInterface.handleSendMessage (js "t1")
             (fun _ => inl Sample.notFound) Sample.session Sample.composing))
     = Some (js "Chat session not found. Please reload the page.").
Proof.
  split; [reflexivity|].
  exact (proj1 (proj2
    (chat_404_session_not_found (js "t1") (fun _ => inl Sample.notFound)
       Sample.session Sample.composing Sample.notFound
       eq_refl eq_refl eq_refl eq_refl eq_refl))).
Defined.

(** C4: a send of a non-blank message that resolves, from a history of
    length n, leaves a history of length n + 2 with the user's message at
    position n, the assistant's reply at position n + 1 and the n earlier
    messages unchanged in order. *)
Theorem send_extends_history
    (now : jsstring) (respond : Request -> Settled ChatResponse)
    (sessionData : SessionData) (st : ChatInterface.State) (r : ChatResponse) :
  blank (ChatInterface.message st) = false ->
  ChatInterface.loading st = false ->
  truthy (sessionId sessionData) = true ->
  respond (chatRequest (sessionId sessionData) (trim (ChatInterface.message st)))
    = inr r ->
  let n := length (ChatInterface.messages st) in
  let after :=
    ChatInterface.messages
      (ChatInterface.view
         (ChatInterface.handleSendMessage now respond sessionData st)) in
  length after = (n + 2)%nat
  /\ after !! n
     = Some {| role := user; content := trim (ChatInterface.message st);
               timestamp := now |}
  /\ after !! (n + 1)%nat
     = Some {| role := assistant; content := chat_response r;
               timestamp := chat_timestamp r |}
  /\ take n after = ChatInterface.messages st.
Proof.
  intros Hc Hl Hs Hr n after. subst after n.
  rewrite (handleSendMessage_resolved now respond sessionData st Hc Hl Hs r Hr).
  cbn [ChatInterface.view ChatInterface.messages].
  unfold ChatInterface.userMessageOf.
  set (h := ChatInterface.messages st).
  repeat split.
  - rewrite !length_app. simpl. lia.
  - rewrite lookup_app_l by (rewrite length_app; simpl; lia).
    rewrite lookup_app_r by lia. replace (length h - length h)%nat with 0%nat by lia.
    reflexivity.
  - rewrite lookup_app_r by (rewrite length_app; simpl; lia).
    rewrite length_app. simpl.
    replace (length h + 1 - (length h + 1))%nat with 0%nat by lia.
    reflexivity.
  - rewrite <- app_assoc. rewrite take_app_length. reflexivity.
Qed.

Lemma send_extends_history_witness :
  blank (ChatInterface.message Sample.composing) = false
  /\ length
       (ChatInterface.messages
          (ChatInterface.view
             (ChatInterface.handleSendMessage (js "t1")
                (fun _ => inr Sample.reply) Sample.session Sample.composing)))
     = 3%nat.
Proof.
  split; [reflexivity|].
  exact (proj1
    (send_extends_history (js "t1") (fun _ => inr Sample.reply)
       Sample.session Sample.composing Sample.reply
       eq_refl eq_refl eq_refl eq_refl)).
Defined.

(** C5: when the backend call of a send fails, the history is again the
    snapshot from before the send (the user message appended while the
    request was awaited is gone), a non-empty error message is shown, and
    the session is not updated. *)
Theorem failed_send_rolls_back
    (now : jsstring) (respond : Request -> Settled ChatResponse)
    (sessionData : SessionData) (st : ChatInterface.State) (e : JsError) :
  blank (ChatInterface.message st) = false ->
  ChatInterface.loading st = false ->
  truthy (sessionId sessionData) = true ->
  respond (chatRequest (sessionId sessionData) (trim (ChatInterface.message st)))
    = inl e ->
  let r := ChatInterface.handleSendMessage now respond sessionData st in
  ChatInterface.messages (ChatInterface.optimistic now st)
    = ChatInterface.messages st ++ [ChatInterface.userMessageOf now st]
  /\ ChatInterface.messages (ChatInterface.view r) = ChatInterface.messages st
  /\ (exists shown,
        ChatInterface.error (ChatInterface.view r) = Some shown
        /\ truthy shown = true
        /\ shown = js_or (err_message (chatError e)) (js "Failed to send message"))
  /\ ChatInterface.sessionUpdate r = None.
Proof.
  intros Hc Hl Hs Hr r. subst r.
  rewrite (handleSendMessage_rejected now respond sessionData st Hc Hl Hs e Hr).
  cbn [ChatInterface.view ChatInterface.messages ChatInterface.error
       ChatInterface.sessionUpdate].
  repeat split.
  eexists. repeat split. apply js_or_truthy. reflexivity.
Qed.

Lemma failed_send_rolls_back_witness :
  blank (ChatInterface.message Sample.composing) = false
  /\ ChatInterface.messages
       (ChatInterface.view
          (ChatInterface.handleSendMessage (js "t1")
             (fun _ => inl Sample.networkError) Sample.session Sample.composing))
     = [Sample.hello].
Proof.
  split; [reflexivity|].
  exact (proj1 (proj2
    (failed_send_rolls_back (js "t1") (fun _ => inl Sample.networkError)
       Sample.session Sample.composing Sample.networkError
       eq_refl eq_refl eq_refl eq_refl))).
Defined.

(** C9: when the composer is empty or holds white space only, or a send is
    in flight, the send handler does nothing: no request is issued, the
    history, the composer text and the error are as before, and the session
    is not updated. *)
Theorem blank_or_loading_send_is_noop
    (now : jsstring) (respond : Request -> Settled ChatResponse)
    (sessionData : SessionData) (st : ChatInterface.State) :
  blank (ChatInterface.message st) = true \/ ChatInterface.loading st = true ->
  ChatInterface.handleSendMessage now respond sessionData st
  = ChatInterface.mkResult st None [].
Proof.
  intros H. unfold ChatInterface.handleSendMessage. rewrite trim_truthy.
  destruct H as [H|H]; rewrite H.
  - reflexivity.
  - rewrite orb_true_r. reflexivity.
Qed.

Lemma blank_or_loading_send_is_noop_witness :
  (blank (ChatInterface.message Sample.spaces) = true
   \/ ChatInterface.loading Sample.spaces = true)
  /\ ChatInterface.handleSendMessage (js "t1") (fun _ => inr Sample.reply)
       Sample.session Sample.spaces
     = ChatInterface.mkResult Sample.spaces None [].
Proof.
  split; [left; reflexivity|].
  apply (blank_or_loading_send_is_noop (js "t1") (fun _ => inr Sample.reply)
           Sample.session Sample.spaces).
  left; reflexivity.
Defined.

(** C10: the clear action empties the view's message list and error and
    nothing else; it does not call the session-update callback and sends
    nothing, so the coordinator's state, with the session's history, is as
    before; when the session effect runs again for the session the view
    shows the session's history again, as does a freshly mounted view. *)
Theorem clear_is_local
    (st : ChatInterface.State) (sessionData : SessionData) (app : App.State) :
  truthy (sessionId sessionData) = true ->
  let r := ChatInterface.clearConversation st in
  ChatInterface.view r
    = ChatInterface.mkState (ChatInterface.message st) []
        (ChatInterface.loading st) None
  /\ ChatInterface.sessionUpdate r = None
  /\ ChatInterface.sent r = []
  /\ Tree.afterChat r app = app
  /\ ChatInterface.messages
       (ChatInterface.sessionEffect sessionData (ChatInterface.view r))
     = conversationHistory sessionData
  /\ ChatInterface.messages (ChatInterface.initial sessionData)
     = conversationHistory sessionData.
Proof.
  intros Hs r. subst r. repeat split.
  unfold ChatInterface.sessionEffect. rewrite Hs. reflexivity.
Qed.

Lemma clear_is_local_witness :
  truthy (sessionId Sample.session) = true
  /\ ChatInterface.messages
       (ChatInterface.sessionEffect Sample.session
          (ChatInterface.view (ChatInterface.clearConversation Sample.composing)))
     = [Sample.hello].
Proof.
  split; [reflexivity|].
  exact (proj1 (proj2 (proj2 (proj2 (proj2
    (clear_is_local Sample.composing Sample.session Sample.app eq_refl)))))).
Defined.

(** ** Session identifiers and the API client *)

(** Three of the session-scoped operations fail before any request when the
    session identifier is empty. *)
Lemma guarded_operations_fail_locally
    (respondS : Request -> Settled SummaryResponse)
    (respondC : Request -> Settled ChatResponse)
    (respondD : Request -> Settled jsstring) (message : jsstring) :
  ApiService.summarizeDocument respondS []
    = ([], inl (Error "Session ID is required"))
  /\ ApiService.chatWithDocument respondC [] message
     = ([], inl (Error "Session ID is required for chat"))
  /\ ApiService.deleteSession respondD []
     = ([], inl (Error "Session ID is required")).
Proof. repeat split. Qed.

(** C2: [explainClause] and [getSession] have no check of the session
    identifier: called with the empty string each one sends its request,
    to the paths "/explain//<clause id>" and "/sessions/". *)
Theorem empty_session_id_reaches_network
    (respondE : Request -> Settled ClauseExplanation)
    (respondG : Request -> Settled SessionPayload) (clauseId : jsstring) :
  requests (ApiService.explainClause respondE [] clauseId)
    = [mkRequest POST (js "/explain//" ++ clauseId) NoBody]
  /\ requests (ApiService.getSession respondG [])
     = [mkRequest GET (js "/sessions/") NoBody].
Proof.
  split.
  - unfold ApiService.explainClause, ApiService.api_call, await, resolve, requests.
    destruct (respondE _); reflexivity.
  - unfold ApiService.getSession, ApiService.api_call, await, resolve, requests.
    destruct (respondG _); reflexivity.
Qed.

(** ** Uploads *)

Lemma uploadDocument_settles respond file :
  ApiService.uploadDocument respond file
  = ([uploadRequest file], respond (uploadRequest file)).
Proof.
  unfold ApiService.uploadDocument, ApiService.api_call, await, resolve.
  fold (uploadRequest file). destruct (respond (uploadRequest file)); reflexivity.
Qed.

(** A handler whose [try] block threw [err]. *)
Lemma handleDocumentUpload_caught respond file st err :
  outcome (App.upload_try respond file) = inl err ->
  fst (App.handleDocumentUpload respond file st)
  = App.mkState (App.currentTab st) None false
      (Some (js_or (err_message err) (js "Failed to upload document")))
      (App.success st) None.
Proof.
  unfold App.handleDocumentUpload, outcome.
  destruct (App.upload_try respond file) as [reqs [e|f]]; simpl; [|discriminate].
  intros [= ->]. reflexivity.
Qed.

Lemma upload_try_no_session_id respond file data :
  respond (uploadRequest file) = inr data ->
  App.session_id_of data = None ->
  App.upload_try respond file
  = ([uploadRequest file], inl (Error "Invalid response: missing session ID")).
Proof.
  intros Hr Hd. unfold App.upload_try. rewrite uploadDocument_settles, Hr.
  unfold await. destruct data as [d|]; [|reflexivity].
  cbv beta iota. rewrite Hd. reflexivity.
Qed.

Lemma upload_try_rejected respond file err :
  respond (uploadRequest file) = inl err ->
  App.upload_try respond file = ([uploadRequest file], inl err).
Proof.
  intros Hr. unfold App.upload_try. rewrite uploadDocument_settles, Hr.
  reflexivity.
Qed.

(** C1, as the code has it: when the body of the upload response has no
    [session_id], the handler shows the error "Invalid response: missing
    session ID" and resets the session and the analysis to null; the tab and
    the success banner are as before. *)
Theorem upload_without_session_id
    (respond : Request -> Settled (option UploadResponse))
    (file : File) (st : App.State) (data : option UploadResponse) :
  respond (uploadRequest file) = inr data ->
  data ≫= up_session_id = None ->
  fst (App.handleDocumentUpload respond file st)
  = App.mkState (App.currentTab st) None false
      (Some (js "Invalid response: missing session ID")) (App.success st) None.
Proof.
  intros Hr Hd.
  apply (handleDocumentUpload_caught respond file st
           (Error "Invalid response: missing session ID")).
  rewrite (upload_try_no_session_id respond file data Hr); [reflexivity|].
  unfold App.session_id_of. rewrite Hd. reflexivity.
Qed.

Lemma upload_without_session_id_witness :
  Some Sample.noSessionId ≫= up_session_id = None
  /\ App.sessionData
       (fst (App.handleDocumentUpload (fun _ => inr (Some Sample.noSessionId))
               Sample.file Sample.app))
     = None.
Proof.
  split; [reflexivity|].
  exact (f_equal App.sessionData
    (upload_without_session_id (fun _ => inr (Some Sample.noSessionId))
       Sample.file Sample.app (Some Sample.noSessionId) eq_refl eq_refl)).
Defined.

(** C1 as stated fails: a coordinator that holds a session loses it when an
    upload is answered without [session_id]. *)
Lemma missing_session_id_resets_session :
  let st' :=
    fst (App.handleDocumentUpload (fun _ => inr (Some Sample.noSessionId))
           Sample.file Sample.app) in
  ~ (App.error st' = Some (js "Invalid response: missing session ID")
     /\ App.sessionData st' = App.sessionData Sample.app
     /\ App.documentAnalysis st' = App.documentAnalysis Sample.app).
Proof. intros st' (_ & H & _). vm_compute in H. discriminate H. Qed.

(** ** The analysis view *)

Section AnalysisView.

Import DocumentAnalysisView.

Variable sessionData : SessionData.

Implicit Types (w : World) (st : State) (c : jsstring).

(** *** The two halves of the expand handler *)

Lemma expandSync_fetches st c :
  snd (expandSync c st)
  = negb (hasExplanation st c) && negb (bool_decide (expandedClause st = Some c)).
Proof. unfold expandSync. destruct (_ && _); reflexivity. Qed.

Lemma expandSync_explanations st c :
  clauseExplanations (fst (expandSync c st)) = clauseExplanations st.
Proof. unfold expandSync. destruct (_ && _); reflexivity. Qed.

Lemma expandSync_loading st c :
  loadingExplanations (fst (expandSync c st))
  = if snd (expandSync c st) then {[c]} ∪ loadingExplanations st
    else loadingExplanations st.
Proof. unfold expandSync. destruct (_ && _); reflexivity. Qed.

Lemma expandSettle_explanations st c r :
  clauseExplanations (expandSettle c r st)
  = match r with
    | inr explanation => <[c := explanation]> (clauseExplanations st)
    | inl _ => clauseExplanations st
    end.
Proof. destruct r; reflexivity. Qed.

Lemma expandSettle_loading st c r :
  loadingExplanations (expandSettle c r st) = loadingExplanations st ∖ {[c]}.
Proof. destruct r; reflexivity. Qed.

(** *** Counting the requests in flight *)

Lemma pending_app c (l1 l2 : list (jsstring * Promise ClauseExplanation)) :
  length (filter (fun e => fst e = c) (l1 ++ l2))
  = (length (filter (fun e => fst e = c) l1)
     + length (filter (fun e => fst e = c) l2))%nat.
Proof. rewrite filter_app, length_app. reflexivity. Qed.

Lemma pending_delete_other c n
    (l : list (jsstring * Promise ClauseExplanation)) e :
  l !! n = Some e -> fst e <> c ->
  filter (fun e => fst e = c) (delete n l) = filter (fun e => fst e = c) l.
Proof.
  revert n. induction l as [|x l IH]; intros [|n] Hn Hne; try discriminate.
  - simpl in Hn. injection Hn as ->. simpl.
    rewrite filter_cons_False by exact Hne. reflexivity.
  - simpl in Hn. simpl. rewrite !filter_cons.
    rewrite (IH n Hn Hne). reflexivity.
Qed.

(** *** Steps keep what was fetched *)

Lemma step_keeps_explanation w ev c :
  is_Some (clauseExplanations (ui w) !! c) ->
  is_Some (clauseExplanations (ui (step sessionData w ev)) !! c).
Proof.
  intros Hc. destruct ev as [c' respond|n|respond|n]; unfold step.
  - pose proof (expandSync_explanations (ui w) c') as He.
    destruct (expandSync c' (ui w)) as [st' [|]]; cbn [ui inflight summaries sentLog fst snd] in *; rewrite He; exact Hc.
  - destruct (inflight w !! n) as [[c' p]|]; [|exact Hc]. cbn [ui].
    rewrite expandSettle_explanations. destruct (outcome p); [exact Hc|].
    destruct (decide (c' = c)) as [->|Hne].
    + rewrite lookup_insert_eq. eauto.
    + rewrite lookup_insert_ne by exact Hne. exact Hc.
  - destruct (loadingSummary (ui w)); [exact Hc|].
    unfold summarySync. destruct (negb _); exact Hc.
  - destruct (summaries w !! n) as [p|]; [|exact Hc]. cbn [ui].
    unfold summarySettle. destruct (outcome p); exact Hc.
Qed.

Lemma run_keeps_explanation evs w c :
  is_Some (clauseExplanations (ui w) !! c) ->
  is_Some (clauseExplanations (ui (run sessionData evs w)) !! c).
Proof.
  revert w. induction evs as [|ev evs IH]; intros w Hc; [exact Hc|].
  simpl. apply IH. apply step_keeps_explanation. exact Hc.
Qed.

(** A click on a clause whose explanation is stored sends nothing and
    leaves the stored explanations and the pending set alone. *)
Lemma click_cached w c respond :
  is_Some (clauseExplanations (ui w) !! c) ->
  let w' := step sessionData w (Click c respond) in
  sentLog w' = sentLog w /\ inflight w' = inflight w
  /\ clauseExplanations (ui w') = clauseExplanations (ui w)
  /\ loadingExplanations (ui w') = loadingExplanations (ui w).
Proof.
  intros Hc. unfold step.
  pose proof (expandSync_fetches (ui w) c) as Hf.
  pose proof (expandSync_explanations (ui w) c) as He.
  pose proof (expandSync_loading (ui w) c) as Hl.
  assert (Hh : hasExplanation (ui w) c = true).
  { unfold hasExplanation. rewrite bool_decide_eq_true_2 by exact Hc. reflexivity. }
  rewrite Hh in Hf. cbn [negb andb] in Hf.
  destruct (expandSync c (ui w)) as [st' b]. cbn [ui inflight summaries sentLog fst snd] in *. subst b.
  cbn [ui inflight sentLog]. auto.
Qed.

(** *** The pending set *)

Lemma step_pending_backed w ev :
  pending_backed w -> pending_backed (step sessionData w ev).
Proof.
  intros Hw c. unfold pendingFor.
  destruct ev as [c' respond|n|respond|n]; unfold step.
  - pose proof (expandSync_loading (ui w) c') as Hl.
    destruct (expandSync c' (ui w)) as [st' [|]]; cbn [ui inflight summaries sentLog fst snd] in *; rewrite Hl.
    + rewrite pending_app. intros [Hin|Hin]%elem_of_union.
      * apply elem_of_singleton in Hin. subst c'.
        rewrite filter_cons_True by reflexivity. simpl. lia.
      * specialize (Hw c Hin). unfold pendingFor in Hw. lia.
    + apply Hw.
  - destruct (inflight w !! n) as [[c' p]|] eqn:Hn; [|apply Hw]. cbn [ui inflight].
    rewrite expandSettle_loading. intros [Hin Hne]%elem_of_difference.
    rewrite (pending_delete_other c n (inflight w) (c', p) Hn).
    + apply Hw, Hin.
    + simpl. intros ->. apply Hne, elem_of_singleton. reflexivity.
  - destruct (loadingSummary (ui w)); [apply Hw|].
    unfold summarySync. destruct (negb _); apply Hw.
  - destruct (summaries w !! n) as [p|]; [|apply Hw]. cbn [ui inflight].
    unfold summarySettle. destruct (outcome p); apply Hw.
Qed.

Lemma run_pending_backed evs w :
  pending_backed w -> pending_backed (run sessionData evs w).
Proof.
  revert w. induction evs as [|ev evs IH]; intros w Hw; [exact Hw|].
  simpl. apply IH, step_pending_backed, Hw.
Qed.

End AnalysisView.

(** C6 as stated fails: expanding a clause, collapsing it and expanding it
    again while the first request is outstanding leaves two explanation
    requests for that clause in flight. *)
Lemma two_fetches_for_one_clause :
  let w := DocumentAnalysisView.run Sample.session Sample.reopened
             DocumentAnalysisView.start in
  DocumentAnalysisView.reachable Sample.session w
  /\ ~ (DocumentAnalysisView.pendingFor Sample.c1 w <= 1)%nat.
Proof.
  intros w. split.
  - exists Sample.reopened. reflexivity.
  - assert (H : DocumentAnalysisView.pendingFor Sample.c1 w = 2%nat)
      by (vm_compute; reflexivity).
    rewrite H. lia.
Qed.

(** C6, as the code has it: the expand handler sends a request exactly when
    the clause has no stored explanation and is not the expanded clause; the
    pending set plays no part in that decision; and in every reachable state
    each clause id in the pending set has at least one request in flight. *)
Theorem pending_set_is_backed_not_consulted (sessionData : SessionData) :
  (forall w, DocumentAnalysisView.reachable sessionData w ->
     forall c, c ∈ DocumentAnalysisView.loadingExplanations (DocumentAnalysisView.ui w) ->
       (1 <= DocumentAnalysisView.pendingFor c w)%nat)
  /\ (forall w c respond,
        DocumentAnalysisView.pendingFor c
          (DocumentAnalysisView.step sessionData w
             (DocumentAnalysisView.Click c respond))
        = if negb (DocumentAnalysisView.hasExplanation (DocumentAnalysisView.ui w) c)
             && negb (bool_decide
                        (DocumentAnalysisView.expandedClause (DocumentAnalysisView.ui w)
                         = Some c))
          then S (DocumentAnalysisView.pendingFor c w)
          else DocumentAnalysisView.pendingFor c w)
  /\ (forall st c pendingSet,
        snd (DocumentAnalysisView.expandSync c
               (DocumentAnalysisView.setLoadingExplanations pendingSet st))
        = snd (DocumentAnalysisView.expandSync c st)).
Proof.
  split; [|split].
  - intros w [evs ->]. apply run_pending_backed.
    intros c Hc. apply not_elem_of_empty in Hc. destruct Hc.
  - intros w c respond. unfold DocumentAnalysisView.step.
    pose proof (expandSync_fetches (DocumentAnalysisView.ui w) c) as Hf.
    destruct (DocumentAnalysisView.expandSync c (DocumentAnalysisView.ui w))
      as [st' b].
    cbn [snd] in Hf. rewrite <- Hf. destruct b; [|reflexivity].
    unfold DocumentAnalysisView.pendingFor.
    cbn [DocumentAnalysisView.inflight]. rewrite pending_app.
    rewrite filter_cons_True by reflexivity.
    simpl. lia.
  - intros st c pendingSet. rewrite !expandSync_fetches. reflexivity.
Qed.

Lemma pending_set_is_backed_not_consulted_witness :
  DocumentAnalysisView.reachable Sample.session Sample.fetching
  /\ Sample.c1
       ∈ DocumentAnalysisView.loadingExplanations
           (DocumentAnalysisView.ui Sample.fetching)
  /\ (1 <= DocumentAnalysisView.pendingFor Sample.c1 Sample.fetching)%nat.
Proof.
  assert (Hr : DocumentAnalysisView.reachable Sample.session Sample.fetching)
    by (eexists; reflexivity).
  assert (Hin : Sample.c1
                  ∈ DocumentAnalysisView.loadingExplanations
                      (DocumentAnalysisView.ui Sample.fetching))
    by (apply elem_of_union_l, elem_of_singleton; reflexivity).
  split; [exact Hr|]. split; [exact Hin|].
  exact (proj1 (pending_set_is_backed_not_consulted Sample.session)
           Sample.fetching Hr Sample.c1 Hin).
Defined.


(** ** Network failures, operation by operation *)

(** C8 as stated fails: after an upload that fails on the network the
    coordinator no longer holds the session it held before. *)
Lemma failed_upload_drops_session :
  ~ (App.sessionData
       (fst (App.handleDocumentUpload (fun _ => inl Sample.networkError)
               Sample.file Sample.app))
     = App.sessionData Sample.app).
Proof. intros H. vm_compute in H. discriminate H. Qed.

Lemma handleClauseExpand_rejected err sessionData c st :
  let st' :=
    fst (DocumentAnalysisView.handleClauseExpand (fun _ => inl err)
           sessionData c st) in
  DocumentAnalysisView.clauseExplanations st'
    = DocumentAnalysisView.clauseExplanations st
  /\ DocumentAnalysisView.documentSummary st'
     = DocumentAnalysisView.documentSummary st
  /\ DocumentAnalysisView.error st' = DocumentAnalysisView.error st.
Proof.
  unfold DocumentAnalysisView.handleClauseExpand,
    DocumentAnalysisView.expandSync.
  destruct (_ && _); repeat split.
Qed.

Lemma handleGenerateSummary_rejected err sessionData st :
  truthy (sessionId sessionData) = true ->
  let st' :=
    fst (DocumentAnalysisView.handleGenerateSummary (fun _ => inl err)
           sessionData st) in
  DocumentAnalysisView.documentSummary st'
    = Some (js "Failed to generate summary. Please try again.")
  /\ DocumentAnalysisView.clauseExplanations st'
     = DocumentAnalysisView.clauseExplanations st
  /\ DocumentAnalysisView.error st' = DocumentAnalysisView.error st.
Proof.
  intros Hs.
  unfold DocumentAnalysisView.handleGenerateSummary,
    DocumentAnalysisView.summarySync, ApiService.summarizeDocument.
  rewrite Hs. repeat split.
Qed.

Lemma loadSession_rejected err sessionId app :
  fst (DocumentUpload.loadSession (fun _ => inl err) sessionId app) = app.
Proof. reflexivity. Qed.

(** C8, as the code has it: every network failure is caught by the handler
    that made the call.  A failed chat send shows an error and leaves the
    history and the coordinator's session as before the send.  A failed
    upload shows an error and resets the session and the analysis to null.
    A failed summary request stores the text "Failed to generate summary.
    Please try again." as the summary.  A failed explanation request and a
    failed session load show nothing; the stored explanations, the summary
    and the coordinator's state are as before. *)
Theorem network_failures_by_operation
    (err : JsError) (file : File) (app : App.State)
    (sessionData : SessionData) (c : jsstring)
    (v : DocumentAnalysisView.State)
    (now : jsstring) (st : ChatInterface.State) (toLoad : jsstring) :
  blank (ChatInterface.message st) = false ->
  ChatInterface.loading st = false ->
  truthy (sessionId sessionData) = true ->
  fst (App.handleDocumentUpload (fun _ => inl err) file app)
    = App.mkState (App.currentTab app) None false
        (Some (js_or (err_message err) (js "Failed to upload document")))
        (App.success app) None
  /\ (let v' :=
        fst (DocumentAnalysisView.handleClauseExpand (fun _ => inl err)
               sessionData c v) in
      DocumentAnalysisView.clauseExplanations v'
        = DocumentAnalysisView.clauseExplanations v
      /\ DocumentAnalysisView.documentSummary v'
         = DocumentAnalysisView.documentSummary v
      /\ DocumentAnalysisView.error v' = DocumentAnalysisView.error v)
  /\ (let v' :=
        fst (DocumentAnalysisView.handleGenerateSummary (fun _ => inl err)
               sessionData v) in
      DocumentAnalysisView.documentSummary v'
        = Some (js "Failed to generate summary. Please try again.")
      /\ DocumentAnalysisView.clauseExplanations v'
         = DocumentAnalysisView.clauseExplanations v
      /\ DocumentAnalysisView.error v' = DocumentAnalysisView.error v)
  /\ (let r := ChatInterface.handleSendMessage now (fun _ => inl err)
                 sessionData st in
      ChatInterface.messages (ChatInterface.view r) = ChatInterface.messages st
      /\ (exists shown,
            ChatInterface.error (ChatInterface.view r) = Some shown
            /\ truthy shown = true)
      /\ Tree.afterChat r app = app)
  /\ fst (DocumentUpload.loadSession (fun _ => inl err) toLoad app) = app.
Proof.
  intros Hc Hl Hs. split; [|split; [|split; [|split]]].
  - apply handleDocumentUpload_caught.
    rewrite (upload_try_rejected _ file err eq_refl). reflexivity.
  - apply handleClauseExpand_rejected.
  - apply handleGenerateSummary_rejected, Hs.
  - intros r. subst r.
    rewrite (handleSendMessage_rejected now _ sessionData st Hc Hl Hs err eq_refl).
    repeat split. eexists. split; [reflexivity|]. apply js_or_truthy. reflexivity.
  - apply loadSession_rejected.
Qed.

Lemma network_failures_by_operation_witness :
  blank (ChatInterface.message Sample.composing) = false
  /\ App.sessionData
       (fst (App.handleDocumentUpload (fun _ => inl Sample.networkError)
               Sample.file Sample.app))
     = None.
Proof.
  split; [reflexivity|].
  exact (f_equal App.sessionData (proj1
    (network_failures_by_operation Sample.networkError Sample.file Sample.app
       Sample.session Sample.c1 DocumentAnalysisView.initial (js "t1")
       Sample.composing (js "s1") eq_refl eq_refl eq_refl))).
Defined.

(** * Further properties of the code *)

(** ** More on [trim] *)

Lemma trimStart_split (s : jsstring) :
  exists a, s = a ++ trimStart s /\ blank a = true.
Proof.
  induction s as [|c r (a & Ha & Hb)]; [exists []; split; reflexivity|].
  simpl. destruct (isWhiteSpace c) eqn:Hc.
  - exists (c :: a). split; [simpl; congruence|]. simpl. rewrite Hc. exact Hb.
  - exists []. split; reflexivity.
Qed.

Lemma trimStart_startsClean (s : jsstring) : startsClean (trimStart s) = true.
Proof.
  induction s as [|c r IH]; [reflexivity|].
  simpl. destruct (isWhiteSpace c) eqn:Hc; [exact IH|].
  simpl. rewrite Hc. reflexivity.
Qed.

Lemma trimEnd_split (s : jsstring) :
  exists b, s = trimEnd s ++ b /\ blank b = true.
Proof.
  destruct (trimStart_split (rev s)) as (a & Ha & Hb).
  exists (rev a). split.
  - unfold trimEnd. rewrite <- rev_app_distr, <- Ha, rev_involutive. reflexivity.
  - rewrite blank_rev. exact Hb.
Qed.

(** [trim] cuts a run of white space off each end and nothing else. *)
Lemma trim_split (s : jsstring) :
  exists a b, s = a ++ trim s ++ b /\ blank a = true /\ blank b = true.
Proof.
  destruct (trimStart_split s) as (a & Ha & Hba).
  destruct (trimEnd_split (trimStart s)) as (b & Hb & Hbb).
  exists a, b. unfold trim. rewrite <- Hb. auto.
Qed.

Lemma trim_trimmed (s : jsstring) : trimmed (trim s) = true.
Proof.
  unfold trimmed. apply andb_true_intro. split.
  - unfold trim. pose proof (trimStart_startsClean s) as Hc.
    destruct (trimEnd_split (trimStart s)) as (b & Hb & _).
    destruct (trimEnd (trimStart s)) as [|c u]; [reflexivity|].
    rewrite Hb in Hc. exact Hc.
  - unfold trim, trimEnd. rewrite rev_involutive. apply trimStart_startsClean.
Qed.

Lemma trim_length (s : jsstring) : (length (trim s) <= length s)%nat.
Proof.
  destruct (trim_split s) as (a & b & Hs & _).
  rewrite Hs at 2. rewrite !length_app. lia.
Qed.

Lemma trim_elem (s : jsstring) (c : N) : c ∈ trim s -> c ∈ s.
Proof.
  destruct (trim_split s) as (a & b & Hs & _). intros Hc.
  rewrite Hs. apply elem_of_app. right. apply elem_of_app. left. exact Hc.
Qed.

(** A string that begins with a character other than white space has a
    non-empty [trim]. *)
Lemma trim_nonempty_head (c : N) (r : jsstring) :
  isWhiteSpace c = false -> trim (c :: r) <> [].
Proof.
  intros Hc Ht. apply trim_blank in Ht. simpl in Ht. rewrite Hc in Ht.
  discriminate.
Qed.

Lemma trim_nonempty_last (r : jsstring) (c : N) :
  isWhiteSpace c = false -> trim (r ++ [c]) <> [].
Proof.
  intros Hc Ht. apply trim_blank in Ht. unfold blank in Ht.
  rewrite forallb_app in Ht. simpl in Ht. rewrite Hc in Ht.
  rewrite andb_false_r in Ht. discriminate.
Qed.

(** ** The API client: one request per call, errors passed on *)

Lemma api_call_requests {T} (respond : Request -> Settled T) m url b :
  requests (let* response := ApiService.api_call respond m url b in resolve response)
  = [mkRequest m url b].
Proof.
  unfold ApiService.api_call, await, resolve, requests.
  destruct (respond _); reflexivity.
Qed.

Lemma api_call_outcome {T} (respond : Request -> Settled T) m url b :
  outcome (let* response := ApiService.api_call respond m url b in resolve response)
  = respond (mkRequest m url b).
Proof.
  unfold ApiService.api_call, await, resolve, outcome.
  destruct (respond _); reflexivity.
Qed.

(** X1: no operation of the API client sends more than one request in a
    call, whatever the backend answers: there is no retry. *)
Theorem api_at_most_one_request
    (respondU : Request -> Settled (option UploadResponse))
    (respondE : Request -> Settled ClauseExplanation)
    (respondS : Request -> Settled SummaryResponse)
    (respondC : Request -> Settled ChatResponse)
    (respondG : Request -> Settled SessionPayload)
    (respondL : Request -> Settled (list SessionInfo))
    (respondH : Request -> Settled HealthResponse)
    (respondD : Request -> Settled jsstring)
    (file : File) (sessionId clauseId message : jsstring) :
  (length (requests (ApiService.uploadDocument respondU file)) <= 1)%nat
  /\ (length (requests (ApiService.explainClause respondE sessionId clauseId)) <= 1)%nat
  /\ (length (requests (ApiService.summarizeDocument respondS sessionId)) <= 1)%nat
  /\ (length (requests (ApiService.chatWithDocument respondC sessionId message)) <= 1)%nat
  /\ (length (requests (ApiService.getSession respondG sessionId)) <= 1)%nat
  /\ (length (requests (ApiService.listSessions respondL)) <= 1)%nat
  /\ (length (requests (ApiService.getHealth respondH)) <= 1)%nat
  /\ (length (requests (ApiService.deleteSession respondD sessionId)) <= 1)%nat.
Proof.
  repeat split.
  - unfold ApiService.uploadDocument. rewrite api_call_requests. simpl. lia.
  - unfold ApiService.explainClause. rewrite api_call_requests. simpl. lia.
  - unfold ApiService.summarizeDocument. destruct (negb (truthy sessionId)).
    + simpl. lia.
    + rewrite api_call_requests. simpl. lia.
  - unfold ApiService.chatWithDocument. destruct (negb (truthy sessionId)).
    + simpl. lia.
    + unfold ApiService.api_call, await, try_catch, resolve, throw, requests.
      destruct (respondC _) as [e|r]; [|simpl; lia].
      destruct (bool_decide _); simpl; lia.
  - unfold ApiService.getSession, ApiService.api_call, await, resolve, requests.
    destruct (respondG _); simpl; lia.
  - unfold ApiService.listSessions. rewrite api_call_requests. simpl. lia.
  - unfold ApiService.getHealth. rewrite api_call_requests. simpl. lia.
  - unfold ApiService.deleteSession. destruct (negb (truthy sessionId)).
    + simpl. lia.
    + rewrite api_call_requests. simpl. lia.
Qed.

(** X2: with a non-empty session identifier every operation is rejected
    with the very error its request failed with; only the chat call rewrites
    it, and only when the status is 404. *)
Theorem api_rejections_pass_through
    (e : JsError) (file : File) (sessionId clauseId message : jsstring) :
  truthy sessionId = true ->
  outcome (ApiService.uploadDocument (fun _ => inl e) file) = inl e
  /\ outcome (ApiService.explainClause (fun _ => inl e) sessionId clauseId) = inl e
  /\ outcome (ApiService.summarizeDocument (fun _ => inl e) sessionId) = inl e
  /\ outcome (ApiService.getSession (fun _ => inl e) sessionId) = inl e
  /\ outcome (ApiService.listSessions (fun _ => inl e)) = inl e
  /\ outcome (ApiService.getHealth (fun _ => inl e)) = inl e
  /\ outcome (ApiService.deleteSession (fun _ => inl e) sessionId) = inl e
  /\ outcome (ApiService.chatWithDocument (fun _ => inl e) sessionId message)
     = inl (chatError e)
  /\ (err_status e <> Some 404 -> chatError e = e).
Proof.
  intros Hs. repeat apply conj.
  - reflexivity.
  - reflexivity.
  - unfold ApiService.summarizeDocument. rewrite Hs. reflexivity.
  - reflexivity.
  - reflexivity.
  - reflexivity.
  - unfold ApiService.deleteSession. rewrite Hs. reflexivity.
  - rewrite (chatWithDocument_rejected (fun _ => inl e) sessionId message e Hs eq_refl).
    reflexivity.
  - intros Hne. unfold chatError. rewrite bool_decide_eq_false_2 by exact Hne.
    reflexivity.
Qed.

Lemma api_rejections_pass_through_witness :
  truthy (js "s1") = true
  /\ outcome (ApiService.deleteSession (fun _ => inl Sample.networkError) (js "s1"))
     = inl Sample.networkError.
Proof.
  split; [reflexivity|].
  exact (proj1 (proj2 (proj2 (proj2 (proj2 (proj2 (proj2
    (api_rejections_pass_through Sample.networkError Sample.file (js "s1")
       Sample.c1 (js "hi") eq_refl)))))))).
Defined.

(** What a session load that is answered resolves with. *)
Lemma getSession_value
    (respond : Request -> Settled SessionPayload) (requested : jsstring)
    (payload : SessionPayload) :
  respond (sessionRequest requested) = inr payload ->
  ApiService.getSession respond requested
  = ([sessionRequest requested],
     inr {| sessionId := js_or (p_session_id payload) requested;
            documentName := document_name <$> (p_data payload ≫= pd_analysis);
            analysis := p_data payload ≫= pd_analysis;
            conversationHistory :=
              match p_data payload ≫= pd_conversation_history with
              | Some h => h
              | None => []
              end |}).
Proof.
  intros Hr. unfold ApiService.getSession, ApiService.api_call, await, resolve.
  fold (sessionRequest requested). rewrite Hr. reflexivity.
Qed.

(** X3: a session load that is answered resolves with a session whose
    identifier is the one in the body when that is non-empty and the
    requested one otherwise, so it is non-empty whenever the requested one
    is; its document name is that of its analysis; and a body without [data]
    gives no analysis and an empty history. *)
Theorem getSession_resolved
    (respond : Request -> Settled SessionPayload) (requested : jsstring)
    (payload : SessionPayload) :
  respond (sessionRequest requested) = inr payload ->
  exists session,
    ApiService.getSession respond requested = ([sessionRequest requested], inr session)
    /\ sessionId session = js_or (p_session_id payload) requested
    /\ (truthy requested = true -> truthy (sessionId session) = true)
    /\ documentName session = document_name <$> analysis session
    /\ (p_data payload = None ->
        analysis session = None /\ conversationHistory session = []).
Proof.
  intros Hr. rewrite (getSession_value respond requested payload Hr).
  eexists. split; [reflexivity|].
  cbn [sessionId documentName analysis conversationHistory].
  repeat apply conj.
  - reflexivity.
  - intros Ht. apply js_or_truthy, Ht.
  - reflexivity.
  - intros ->. split; reflexivity.
Qed.

Lemma getSession_resolved_witness :
  exists session,
    ApiService.getSession (fun _ => inr {| p_session_id := None; p_data := None |})
      (js "s1")
    = ([sessionRequest (js "s1")], inr session)
    /\ sessionId session = js "s1".
Proof.
  destruct (getSession_resolved
              (fun _ => inr {| p_session_id := None; p_data := None |})
              (js "s1") {| p_session_id := None; p_data := None |} eq_refl)
    as (session & H1 & H2 & _).
  exists session. split; [exact H1 | exact H2].
Defined.

(** ** The coordinator: uploads, session loads and what is rendered *)

Lemma handleDocumentUpload_halves respond file st :
  App.handleDocumentUpload respond file st
  = (App.uploadSettle (App.uploadOutcome respond file) (App.uploadBegin st),
     requests (App.upload_try respond file)).
Proof.
  unfold App.handleDocumentUpload, App.uploadOutcome, App.uploadSettle,
    App.uploadBegin, outcome, requests.
  destruct (App.upload_try respond file) as [reqs [err|setters]]; reflexivity.
Qed.

Lemma upload_try_requests respond file :
  requests (App.upload_try respond file) = [uploadRequest file].
Proof.
  unfold App.upload_try. rewrite uploadDocument_settles.
  unfold await, requests.
  destruct (respond (uploadRequest file)) as [e|data]; [reflexivity|].
  destruct data as [d|]; [|reflexivity].
  cbv beta iota. destruct (App.session_id_of (Some d)); reflexivity.
Qed.

(** The session an upload response with identifier [sid] gives. *)
Lemma upload_try_resolved respond file data sid :
  respond (uploadRequest file) = inr (Some data) ->
  up_session_id data = Some sid ->
  truthy sid = true ->
  App.uploadOutcome respond file
  = inr (fun st =>
      App.setCurrentTab 1
        (App.setSuccess (Some (js "Document uploaded and processed successfully!"))
          (App.setDocumentAnalysis (Some (up_analysis data))
            (App.setSessionData
               (Some {| sessionId := sid;
                        documentName := Some (up_document_name data);
                        analysis := Some (up_analysis data);
                        conversationHistory := [] |}) st)))).
Proof.
  intros Hr Hd Ht. unfold App.uploadOutcome, App.upload_try.
  rewrite uploadDocument_settles, Hr. unfold await. cbv beta iota.
  unfold App.session_id_of. cbn [mbind option_bind]. rewrite Hd, Ht.
  reflexivity.
Qed.

(** Whatever [upload_try] resolves with sets a session and an analysis. *)
Lemma uploadOutcome_sets_both respond file setters :
  App.uploadOutcome respond file = inr setters ->
  forall st,
    is_Some (App.sessionData (setters st))
    /\ is_Some (App.documentAnalysis (setters st))
    /\ App.currentTab (setters st) = 1.
Proof.
  unfold App.uploadOutcome, App.upload_try. rewrite uploadDocument_settles.
  unfold await, outcome.
  destruct (respond (uploadRequest file)) as [e|data]; [discriminate|].
  destruct data as [d|]; [|discriminate].
  cbv beta iota. destruct (App.session_id_of (Some d)); [|discriminate].
  cbn [resolve snd]. intros [= <-] st. cbn. eauto.
Qed.

(** X4: an upload answered with a non-empty session identifier leaves the
    coordinator on the analysis tab with the new session, whose history is
    empty, shows the analysis view and the success banner, enables both
    tabs, and the chat and analysis views mount for that session without the
    missing-session error. *)
Theorem upload_success_opens_analysis
    (respond : Request -> Settled (option UploadResponse)) (file : File)
    (st : App.State) (data : UploadResponse) (sid : jsstring) :
  respond (uploadRequest file) = inr (Some data) ->
  up_session_id data = Some sid ->
  truthy sid = true ->
  let session := {| sessionId := sid;
                    documentName := Some (up_document_name data);
                    analysis := Some (up_analysis data);
                    conversationHistory := [] |} in
  let banner := js "Document uploaded and processed successfully!" in
  let st' := fst (App.handleDocumentUpload respond file st) in
  st' = App.mkState 1 (Some session) false None (Some banner)
          (Some (up_analysis data))
  /\ App.main st' = [App.AnalysisView session (up_analysis data);
                     App.SuccessAlert banner]
  /\ App.tabDisabled App.AnalysisTab st' = false
  /\ App.tabDisabled App.AssistantTab st' = false
  /\ ChatInterface.sessionEffect session (ChatInterface.initial session)
     = ChatInterface.mkState [] [] false None
  /\ DocumentAnalysisView.sessionEffect session DocumentAnalysisView.initial
     = DocumentAnalysisView.initial.
Proof.
  intros Hr Hd Ht session banner st'.
  assert (Hst : st' = App.mkState 1 (Some session) false None (Some banner)
                        (Some (up_analysis data))).
  { subst st'. rewrite handleDocumentUpload_halves.
    rewrite (upload_try_resolved respond file data sid Hr Hd Ht). reflexivity. }
  rewrite Hst. repeat apply conj; try reflexivity.
  - unfold ChatInterface.sessionEffect. cbn [sessionId session]. rewrite Ht.
    reflexivity.
  - unfold DocumentAnalysisView.sessionEffect. cbn [sessionId session].
    rewrite Ht. reflexivity.
Qed.

Lemma upload_success_opens_analysis_witness :
  truthy (js "s2") = true
  /\ App.tabDisabled App.AssistantTab
       (fst (App.handleDocumentUpload (fun _ => inr (Some Sample.okUpload))
               Sample.file App.initial))
     = false.
Proof.
  split; [reflexivity|].
  exact (proj1 (proj2 (proj2 (proj2
    (upload_success_opens_analysis (fun _ => inr (Some Sample.okUpload))
       Sample.file App.initial Sample.okUpload (js "s2")
       eq_refl eq_refl eq_refl))))).
Defined.

(** X5: after an upload whose [try] block threw, whatever the coordinator
    held before, the analysis and assistant tabs are disabled and the page
    shows the upload view (on tab 0 only), the error and the success banner
    left from before: neither the analysis view nor the chat view. *)
Theorem upload_failure_closes_views
    (respond : Request -> Settled (option UploadResponse)) (file : File)
    (st : App.State) (err : JsError) :
  App.uploadOutcome respond file = inl err ->
  let st' := fst (App.handleDocumentUpload respond file st) in
  let shown := js_or (err_message err) (js "Failed to upload document") in
  App.tabDisabled App.AnalysisTab st' = true
  /\ App.tabDisabled App.AssistantTab st' = true
  /\ App.main st'
     = (if App.currentTab st =? 0 then [App.UploadView false] else [])
       ++ [App.ErrorAlert shown] ++ App.alert App.SuccessAlert (App.success st).
Proof.
  intros Hr st' shown. subst st'.
  rewrite (handleDocumentUpload_caught respond file st err Hr).
  repeat apply conj; try reflexivity.
  unfold App.main. cbn [App.currentTab App.documentAnalysis App.sessionData
                        App.error App.success App.loading App.alert].
  assert (Hs : truthy shown = true) by (apply js_or_truthy; reflexivity).
  fold shown. rewrite Hs.
  destruct (App.currentTab st =? 0), (App.currentTab st =? 1),
    (App.currentTab st =? 2); reflexivity.
Qed.

Lemma upload_failure_closes_views_witness :
  App.uploadOutcome (fun _ => inl Sample.networkError) Sample.file
    = inl Sample.networkError
  /\ App.main
       (fst (App.handleDocumentUpload (fun _ => inl Sample.networkError)
               Sample.file Sample.app))
     = [App.ErrorAlert (js "Network Error")].
Proof.
  split; [reflexivity|].
  exact (proj2 (proj2
    (upload_failure_closes_views (fun _ => inl Sample.networkError) Sample.file
       Sample.app Sample.networkError eq_refl))).
Defined.

(** X6: a session load that is answered always switches to tab 1 and stores
    the session.  When the body carries an analysis the analysis view of
    that session is shown; when it carries none, both tabs are disabled and
    no view is shown at all, only the alerts left from before. *)
Theorem loadSession_shows_analysis_or_nothing
    (respond : Request -> Settled SessionPayload) (requested : jsstring)
    (payload : SessionPayload) (app : App.State) :
  respond (sessionRequest requested) = inr payload ->
  let app' := fst (DocumentUpload.loadSession respond requested app) in
  let alerts := App.alert App.ErrorAlert (App.error app)
                ++ App.alert App.SuccessAlert (App.success app) in
  App.currentTab app' = 1
  /\ (exists session,
        App.sessionData app' = Some session
        /\ App.documentAnalysis app' = analysis session
        /\ App.main app'
           = match analysis session with
             | Some da => App.AnalysisView session da :: alerts
             | None => alerts
             end)
  /\ (p_data payload ≫= pd_analysis = None ->
      App.tabDisabled App.AnalysisTab app' = true
      /\ App.tabDisabled App.AssistantTab app' = true
      /\ App.main app' = alerts).
Proof.
  intros Hr app' alerts.
  pose proof (getSession_value respond requested payload Hr) as Hg.
  set (session :=
         {| sessionId := js_or (p_session_id payload) requested;
            documentName := document_name <$> (p_data payload ≫= pd_analysis);
            analysis := p_data payload ≫= pd_analysis;
            conversationHistory :=
              match p_data payload ≫= pd_conversation_history with
              | Some h => h
              | None => []
              end |}) in Hg.
  assert (Ha : analysis session = p_data payload ≫= pd_analysis) by reflexivity.
  clearbody session.
  assert (Happ : app' = App.handleSessionLoad session app).
  { subst app'. unfold DocumentUpload.loadSession. rewrite Hg. reflexivity. }
  assert (Hm : App.main app'
               = match analysis session with
                 | Some da => App.AnalysisView session da :: alerts
                 | None => alerts
                 end).
  { rewrite Happ. unfold App.main, App.handleSessionLoad. cbn.
    destruct (analysis session); reflexivity. }
  split; [rewrite Happ; reflexivity|]. split.
  - exists session. rewrite Hm. rewrite Happ. repeat split.
  - intros Hn. rewrite Hm. rewrite Happ.
    unfold App.tabDisabled, App.handleSessionLoad. cbn.
    rewrite Ha, Hn. repeat split.
Qed.

Lemma loadSession_shows_analysis_or_nothing_witness :
  App.main
    (fst (DocumentUpload.loadSession
            (fun _ => inr {| p_session_id := None; p_data := None |})
            (js "s1") App.initial))
  = [].
Proof.
  exact (proj2 (proj2 (proj2 (proj2
    (loadSession_shows_analysis_or_nothing
       (fun _ => inr {| p_session_id := None; p_data := None |})
       (js "s1") {| p_session_id := None; p_data := None |} App.initial
       eq_refl)) eq_refl))).
Defined.

(** ** The coordinator under any sequence of events *)

Lemma alert_only (mk : jsstring -> App.Child) (msg : option jsstring)
    (x : App.Child) :
  x ∈ App.alert mk msg -> exists m, x = mk m.
Proof.
  unfold App.alert. destruct msg as [m|]; [destruct (truthy m)|]; intros Hin.
  - apply list_elem_of_singleton in Hin. eauto.
  - inversion Hin.
  - inversion Hin.
Qed.

Lemma step_coordinator_ok (st : App.State) (ev : App.Event) :
  App.coordinator_ok st -> App.coordinator_ok (App.step st ev).
Proof.
  intros [Hs Ht]. destruct ev as [t| |respond file|session|session].
  - unfold App.step. destruct (App.tabDisabled t st); [split; assumption|].
    split; [exact Hs|]. destruct t; cbn; auto.
  - split; [exact Hs | exact Ht].
  - unfold App.step, App.uploadSettle.
    destruct (App.uploadOutcome respond file) as [err|setters] eqn:Ho.
    + split; [|exact Ht]. cbn. intros [x Hx]. discriminate Hx.
    + destruct (uploadOutcome_sets_both respond file setters Ho st)
        as (H1 & H2 & H3).
      split; cbn; auto.
  - split; cbn; eauto.
  - split; cbn; eauto.
Qed.

(** X7: from the initial state, after any sequence of tab clicks, upload
    halves, session loads and session updates, the coordinator holds a
    session whenever it holds an analysis, and the tab is 0, 1 or 2; hence on
    tab 1 the analysis view is rendered exactly when the tab's button is
    enabled, and likewise the chat view on tab 2. *)
Theorem coordinator_keeps_session_with_analysis (evs : list App.Event) :
  let st := App.run evs App.initial in
  App.coordinator_ok st
  /\ (App.currentTab st = 1 ->
      (exists sd da, App.AnalysisView sd da ∈ App.main st)
      <-> App.tabDisabled App.AnalysisTab st = false)
  /\ (App.currentTab st = 2 ->
      (exists sd, App.ChatView sd ∈ App.main st)
      <-> App.tabDisabled App.AssistantTab st = false).
Proof.
  intros st.
  assert (Hok : App.coordinator_ok st).
  { subst st. unfold App.run.
    assert (H0 : App.coordinator_ok App.initial).
    { split; [intros [x Hx]; discriminate Hx | left; reflexivity]. }
    revert H0. generalize App.initial.
    induction evs as [|ev evs IH]; intros s0 H0; [exact H0|].
    simpl. apply IH, step_coordinator_ok, H0. }
  split; [exact Hok|]. destruct Hok as [Hs _].
  unfold App.main, App.tabDisabled. split; intros Htab; rewrite Htab; cbn.
  - destruct (App.documentAnalysis st) as [da|] eqn:Hda.
    + destruct (Hs (ex_intro _ da eq_refl)) as [sd Hsd]. rewrite Hsd.
      split; [reflexivity|]. intros _. exists sd, da. apply list_elem_of_here.
    + split; [|discriminate]. intros (sd & da & Hin).
      repeat (apply elem_of_app in Hin as [Hin|Hin]);
        first [ apply alert_only in Hin as [m Hm]; discriminate Hm
              | inversion Hin ].
  - destruct (App.documentAnalysis st) as [da|] eqn:Hda.
    + destruct (Hs (ex_intro _ da eq_refl)) as [sd Hsd]. rewrite Hsd.
      split; [reflexivity|]. intros _. exists sd. apply list_elem_of_here.
    + split; [|discriminate]. intros (sd & Hin).
      repeat (apply elem_of_app in Hin as [Hin|Hin]);
        first [ apply alert_only in Hin as [m Hm]; discriminate Hm
              | inversion Hin ].
Qed.

Lemma coordinator_keeps_session_with_analysis_witness :
  App.currentTab (App.run Sample.uploads App.initial) = 1
  /\ exists sd da,
       App.AnalysisView sd da ∈ App.main (App.run Sample.uploads App.initial).
Proof.
  split; [reflexivity|].
  apply (proj1 (proj2 (coordinator_keeps_session_with_analysis Sample.uploads))
           eq_refl).
  reflexivity.
Defined.

(** X8: a drop hands only the first accepted file to the upload handler:
    exactly one request goes out, carrying that file, however many files
    were dropped; an empty drop sends nothing and changes nothing. *)
Theorem onDrop_uploads_first_file_only
    (respond : Request -> Settled (option UploadResponse))
    (file : File) (others : list File) (app : App.State) :
  snd (DocumentUpload.onDrop respond (file :: others) app) = [uploadRequest file]
  /\ fst (DocumentUpload.onDrop respond (file :: others) app)
     = fst (DocumentUpload.onDrop respond [file] app)
  /\ DocumentUpload.onDrop respond [] app = (app, []).
Proof.
  repeat apply conj; try reflexivity.
  unfold DocumentUpload.onDrop. rewrite handleDocumentUpload_halves.
  apply upload_try_requests.
Qed.

(** ** The chat view: what is sent and what is stored *)

(** The three ways through [handleSendMessage]. *)
Lemma handleSendMessage_cases now respond sessionData st :
  let r := ChatInterface.handleSendMessage now respond sessionData st in
  (ChatInterface.sendDisabled st = true /\ r = ChatInterface.mkResult st None [])
  \/ (ChatInterface.sendDisabled st = false
      /\ truthy (sessionId sessionData) = false
      /\ r = ChatInterface.mkResult
               (ChatInterface.setError
                  (Some (js "Session ID is not available. Please reload the page."))
                  st) None [])
  \/ (blank (ChatInterface.message st) = false
      /\ ChatInterface.loading st = false
      /\ truthy (sessionId sessionData) = true).
Proof.
  unfold ChatInterface.handleSendMessage, ChatInterface.sendDisabled.
  rewrite trim_truthy.
  destruct (blank (ChatInterface.message st)); cbn [negb orb].
  - left. rewrite orb_true_r. split; reflexivity.
  - destruct (ChatInterface.loading st); cbn [orb].
    + left. split; reflexivity.
    + destruct (truthy (sessionId sessionData)); cbn [negb].
      * right. right. repeat split.
      * right. left. repeat split.
Qed.

Lemma handleSendMessage_sent now respond sessionData st :
  blank (ChatInterface.message st) = false ->
  ChatInterface.loading st = false ->
  truthy (sessionId sessionData) = true ->
  ChatInterface.sent (ChatInterface.handleSendMessage now respond sessionData st)
  = [chatRequest (sessionId sessionData) (trim (ChatInterface.message st))].
Proof.
  intros Hc Hl Hs.
  destruct (respond (chatRequest (sessionId sessionData)
                       (trim (ChatInterface.message st)))) as [e|r] eqn:Hr.
  - rewrite (handleSendMessage_rejected now respond sessionData st Hc Hl Hs e Hr).
    reflexivity.
  - rewrite (handleSendMessage_resolved now respond sessionData st Hc Hl Hs r Hr).
    reflexivity.
Qed.

(** X9: with an empty session identifier the chat view never sends a
    request, never calls the session-update callback and leaves the history
    and the composer as they are; when the send was otherwise allowed it
    shows "Session ID is not available. Please reload the page.". *)
Theorem chat_without_session_sends_nothing
    (now : jsstring) (respond : Request -> Settled ChatResponse)
    (sessionData : SessionData) (st : ChatInterface.State) :
  truthy (sessionId sessionData) = false ->
  let r := ChatInterface.handleSendMessage now respond sessionData st in
  ChatInterface.sent r = []
  /\ ChatInterface.sessionUpdate r = None
  /\ ChatInterface.messages (ChatInterface.view r) = ChatInterface.messages st
  /\ ChatInterface.message (ChatInterface.view r) = ChatInterface.message st
  /\ (ChatInterface.sendDisabled st = false ->
      ChatInterface.error (ChatInterface.view r)
      = Some (js "Session ID is not available. Please reload the page.")).
Proof.
  intros Hs r.
  destruct (handleSendMessage_cases now respond sessionData st)
    as [[Hd Hr] | [(Hd & _ & Hr) | (_ & _ & Ht)]].
  - subst r. rewrite Hr. repeat apply conj; try reflexivity.
    rewrite Hd. discriminate.
  - subst r. rewrite Hr. repeat apply conj; reflexivity.
  - congruence.
Qed.

Lemma chat_without_session_sends_nothing_witness :
  truthy (sessionId Sample.orphan) = false
  /\ ChatInterface.sent
       (ChatInterface.handleSendMessage (js "t1") (fun _ => inr Sample.reply)
          Sample.orphan Sample.composing)
     = [].
Proof.
  split; [reflexivity|].
  exact (proj1
    (chat_without_session_sends_nothing (js "t1") (fun _ => inr Sample.reply)
       Sample.orphan Sample.composing eq_refl)).
Defined.

(** X10: whatever the send handler sends is a single request to the chat
    path of the session, and its content is the composer text trimmed: not
    empty, with no white space at either end. *)
Theorem chat_sends_trimmed_message
    (now : jsstring) (respond : Request -> Settled ChatResponse)
    (sessionData : SessionData) (st : ChatInterface.State) (req : Request) :
  req ∈ ChatInterface.sent
          (ChatInterface.handleSendMessage now respond sessionData st) ->
  let body := trim (ChatInterface.message st) in
  ChatInterface.sent (ChatInterface.handleSendMessage now respond sessionData st)
    = [req]
  /\ req = chatRequest (sessionId sessionData) body
  /\ body <> []
  /\ trimmed body = true
  /\ sessionId sessionData <> [].
Proof.
  intros Hin body.
  destruct (handleSendMessage_cases now respond sessionData st)
    as [[_ Hr] | [(_ & _ & Hr) | (Hc & Hl & Hs)]].
  - rewrite Hr in Hin. inversion Hin.
  - rewrite Hr in Hin. inversion Hin.
  - rewrite (handleSendMessage_sent now respond sessionData st Hc Hl Hs) in *.
    apply list_elem_of_singleton in Hin. subst req.
    repeat apply conj; try reflexivity.
    + intros Hb. apply trim_blank in Hb. congruence.
    + apply trim_trimmed.
    + intros Hn. rewrite Hn in Hs. discriminate.
Qed.

Lemma chat_sends_trimmed_message_witness :
  chatRequest (js "s1") (js "What is this?")
    ∈ ChatInterface.sent
        (ChatInterface.handleSendMessage (js "t1") (fun _ => inr Sample.reply)
           Sample.session Sample.composing)
  /\ trimmed (trim (ChatInterface.message Sample.composing)) = true.
Proof.
  assert (Hin : chatRequest (js "s1") (js "What is this?")
                  ∈ ChatInterface.sent
                      (ChatInterface.handleSendMessage (js "t1")
                         (fun _ => inr Sample.reply) Sample.session
                         Sample.composing))
    by apply list_elem_of_here.
  split; [exact Hin|].
  exact (proj1 (proj2 (proj2 (proj2
    (chat_sends_trimmed_message (js "t1") (fun _ => inr Sample.reply)
       Sample.session Sample.composing _ Hin))))).
Defined.

(** X11: whenever the send handler calls the session-update callback, the
    session it passes differs from the view's session only in its history,
    that history is the view's message list and extends the list from before
    the send by two messages, the coordinator then holds that session, and
    the session effect run for it leaves the view as it is. *)
Theorem send_keeps_view_and_session_in_step
    (now : jsstring) (respond : Request -> Settled ChatResponse)
    (sessionData : SessionData) (st : ChatInterface.State)
    (app : App.State) (updated : SessionData) :
  let r := ChatInterface.handleSendMessage now respond sessionData st in
  ChatInterface.sessionUpdate r = Some updated ->
  sessionId updated = sessionId sessionData
  /\ documentName updated = documentName sessionData
  /\ analysis updated = analysis sessionData
  /\ conversationHistory updated = ChatInterface.messages (ChatInterface.view r)
  /\ (exists reply,
        conversationHistory updated
        = ChatInterface.messages st
          ++ [ChatInterface.userMessageOf now st; reply]
        /\ role reply = assistant)
  /\ App.sessionData (Tree.afterChat r app) = Some updated
  /\ ChatInterface.sessionEffect updated (ChatInterface.view r)
     = ChatInterface.view r.
Proof.
  intros r Hu.
  destruct (handleSendMessage_cases now respond sessionData st)
    as [[_ Hr] | [(_ & _ & Hr) | (Hc & Hl & Hs)]].
  - subst r. rewrite Hr in Hu. discriminate Hu.
  - subst r. rewrite Hr in Hu. discriminate Hu.
  - destruct (respond (chatRequest (sessionId sessionData)
                         (trim (ChatInterface.message st)))) as [e|resp] eqn:Hresp.
    + subst r.
      rewrite (handleSendMessage_rejected now respond sessionData st Hc Hl Hs e Hresp)
        in Hu.
      discriminate Hu.
    + unfold Tree.afterChat. subst r.
      rewrite (handleSendMessage_resolved now respond sessionData st Hc Hl Hs
                 resp Hresp) in *.
      cbv zeta in *. cbn [ChatInterface.sessionUpdate ChatInterface.view
                           ChatInterface.messages] in *.
      injection Hu as <-. cbn [sessionId documentName analysis conversationHistory].
      repeat apply conj; try reflexivity.
      * eexists. rewrite <- app_assoc. split; reflexivity.
      * unfold ChatInterface.sessionEffect. cbn [sessionId]. rewrite Hs.
        reflexivity.
Qed.

Lemma send_keeps_view_and_session_in_step_witness :
  exists updated,
    ChatInterface.sessionUpdate
      (ChatInterface.handleSendMessage (js "t1") (fun _ => inr Sample.reply)
         Sample.session Sample.composing)
    = Some updated
    /\ sessionId updated = js "s1".
Proof.
  eexists. split; [reflexivity|].
  exact (proj1
    (send_keeps_view_and_session_in_step (js "t1") (fun _ => inr Sample.reply)
       Sample.session Sample.composing Sample.app _ eq_refl)).
Defined.

(** X12: a send that resolves after the conversation was cleared hands the
    coordinator a session whose history is just the new user message and the
    reply: the messages the session held before the clear are not in it. *)
Theorem send_after_clear_replaces_history
    (now : jsstring) (respond : Request -> Settled ChatResponse)
    (sessionData : SessionData) (st : ChatInterface.State) (resp : ChatResponse) :
  blank (ChatInterface.message st) = false ->
  ChatInterface.loading st = false ->
  truthy (sessionId sessionData) = true ->
  respond (chatRequest (sessionId sessionData) (trim (ChatInterface.message st)))
    = inr resp ->
  let cleared := ChatInterface.view (ChatInterface.clearConversation st) in
  let r := ChatInterface.handleSendMessage now respond sessionData cleared in
  exists updated,
    ChatInterface.sessionUpdate r = Some updated
    /\ conversationHistory updated
       = [ {| role := user; content := trim (ChatInterface.message st);
              timestamp := now |};
           {| role := assistant; content := chat_response resp;
              timestamp := chat_timestamp resp |} ].
Proof.
  intros Hc Hl Hs Hr cleared r. subst r.
  rewrite (handleSendMessage_resolved now respond sessionData cleared Hc Hl Hs
             resp Hr).
  eexists. split; reflexivity.
Qed.

Lemma send_after_clear_replaces_history_witness :
  blank (ChatInterface.message Sample.composing) = false
  /\ exists updated,
       ChatInterface.sessionUpdate
         (ChatInterface.handleSendMessage (js "t1") (fun _ => inr Sample.reply)
            Sample.session
            (ChatInterface.view (ChatInterface.clearConversation Sample.composing)))
       = Some updated
       /\ length (conversationHistory updated) = 2%nat.
Proof.
  split; [reflexivity|].
  destruct (send_after_clear_replaces_history (js "t1")
              (fun _ => inr Sample.reply) Sample.session Sample.composing
              Sample.reply eq_refl eq_refl eq_refl eq_refl)
    as (updated & Hu & Hh).
  exists updated. split; [exact Hu|]. rewrite Hh. reflexivity.
Defined.


(** X14: a key press other than Enter without Shift does not call
    [preventDefault], sends nothing and changes nothing; Enter without Shift
    calls [preventDefault] and does what the Send button does; and whenever
    the Send button is disabled, Enter too sends nothing and changes
    nothing. *)
Theorem key_press_sends_only_on_plain_enter
    (now : jsstring) (respond : Request -> Settled ChatResponse)
    (sessionData : SessionData) (st : ChatInterface.State)
    (key : jsstring) (shiftKey : bool) :
  (key <> js "Enter" \/ shiftKey = true ->
   ChatInterface.handleKeyPress now respond sessionData key shiftKey st
   = (false, ChatInterface.mkResult st None []))
  /\ ChatInterface.handleKeyPress now respond sessionData (js "Enter") false st
     = (true, ChatInterface.handleSendMessage now respond sessionData st)
  /\ (ChatInterface.sendDisabled st = true ->
      snd (ChatInterface.handleKeyPress now respond sessionData key shiftKey st)
      = ChatInterface.mkResult st None []).
Proof.
  repeat apply conj.
  - intros [Hk | ->]; unfold ChatInterface.handleKeyPress.
    + rewrite bool_decide_eq_false_2 by exact Hk. reflexivity.
    + rewrite andb_false_r. reflexivity.
  - reflexivity.
  - intros Hd. unfold ChatInterface.handleKeyPress.
    destruct (bool_decide (key = js "Enter") && negb shiftKey); [|reflexivity].
    cbn [snd].
    destruct (handleSendMessage_cases now respond sessionData st)
      as [[_ Hr] | [(Hd' & _) | (Hc & Hl & _)]].
    + exact Hr.
    + congruence.
    + unfold ChatInterface.sendDisabled in Hd.
      rewrite trim_truthy, Hc, Hl in Hd. discriminate Hd.
Qed.

Lemma key_press_sends_only_on_plain_enter_witness :
  ChatInterface.sendDisabled Sample.spaces = true
  /\ snd (ChatInterface.handleKeyPress (js "t1") (fun _ => inr Sample.reply)
            Sample.session (js "Enter") false Sample.spaces)
     = ChatInterface.mkResult Sample.spaces None [].
Proof.
  split; [reflexivity|].
  exact (proj2 (proj2
    (key_press_sends_only_on_plain_enter (js "t1") (fun _ => inr Sample.reply)
       Sample.session Sample.spaces (js "Enter") false)) eq_refl).
Defined.

(** ** The analysis view: summaries and the request log *)

Section AnalysisRequests.

Import DocumentAnalysisView.

Variable sessionData : SessionData.

Implicit Types (w : World) (st : State) (c : jsstring).

Lemma explainClause_requests respond sid c :
  requests (ApiService.explainClause respond sid c) = [explainRequest sid c].
Proof. unfold ApiService.explainClause. apply api_call_requests. Qed.






End AnalysisRequests.

(** A click spelled out: the toggle, and the request when the guard holds. *)
Lemma click_step (sessionData : SessionData) (w : DocumentAnalysisView.World)
    (c : jsstring) (respond : Request -> Settled ClauseExplanation) :
  DocumentAnalysisView.step sessionData w (DocumentAnalysisView.Click c respond)
  = let isExpanded :=
      bool_decide
        (DocumentAnalysisView.expandedClause (DocumentAnalysisView.ui w) = Some c) in
    let st1 :=
      DocumentAnalysisView.setExpandedClause
        (if isExpanded then None else Some c) (DocumentAnalysisView.ui w) in
    if negb (DocumentAnalysisView.hasExplanation (DocumentAnalysisView.ui w) c)
       && negb isExpanded
    then DocumentAnalysisView.mkWorld
           (DocumentAnalysisView.setLoadingExplanations
              ({[c]} ∪ DocumentAnalysisView.loadingExplanations st1) st1)
           (DocumentAnalysisView.inflight w
              ++ [(c, ApiService.explainClause respond (sessionId sessionData) c)])
           (DocumentAnalysisView.summaries w)
           (DocumentAnalysisView.sentLog w
              ++ [explainRequest (sessionId sessionData) c])
    else DocumentAnalysisView.mkWorld st1 (DocumentAnalysisView.inflight w)
           (DocumentAnalysisView.summaries w) (DocumentAnalysisView.sentLog w).
Proof.
  unfold DocumentAnalysisView.step, DocumentAnalysisView.expandSync.
  cbv zeta. destruct (_ && _); [rewrite explainClause_requests|]; reflexivity.
Qed.

(** X17: two clicks in a row on a clause that has no stored explanation
    send exactly one explanation request between them, for that clause,
    whichever clause was expanded before; the clause ends expanded if it was
    the expanded one before and collapsed otherwise. *)
Theorem two_clicks_one_request
    (sessionData : SessionData) (w : DocumentAnalysisView.World) (c : jsstring)
    (respond1 respond2 : Request -> Settled ClauseExplanation) :
  DocumentAnalysisView.hasExplanation (DocumentAnalysisView.ui w) c = false ->
  let w2 :=
    DocumentAnalysisView.step sessionData
      (DocumentAnalysisView.step sessionData w
         (DocumentAnalysisView.Click c respond1))
      (DocumentAnalysisView.Click c respond2) in
  DocumentAnalysisView.sentLog w2
    = DocumentAnalysisView.sentLog w ++ [explainRequest (sessionId sessionData) c]
  /\ DocumentAnalysisView.pendingFor c w2
     = S (DocumentAnalysisView.pendingFor c w)
  /\ DocumentAnalysisView.expandedClause (DocumentAnalysisView.ui w2)
     = if bool_decide
            (DocumentAnalysisView.expandedClause (DocumentAnalysisView.ui w)
             = Some c)
       then Some c else None.
Proof.
  intros Hh w2. subst w2.
  set (sid := sessionId sessionData).
  set (w1 := DocumentAnalysisView.step sessionData w
               (DocumentAnalysisView.Click c respond1)).
  assert (Hcache : DocumentAnalysisView.hasExplanation
                     (DocumentAnalysisView.ui w1) c = false).
  { rewrite <- Hh. unfold DocumentAnalysisView.hasExplanation. f_equal. f_equal.
    subst w1. unfold DocumentAnalysisView.step.
    pose proof (expandSync_explanations (DocumentAnalysisView.ui w) c) as He.
    destruct (DocumentAnalysisView.expandSync c (DocumentAnalysisView.ui w))
      as [st' [|]]; cbn [fst DocumentAnalysisView.ui] in *; rewrite He;
      reflexivity. }
  rewrite (click_step sessionData w1 c respond2), Hcache.
  subst w1. rewrite (click_step sessionData w c respond1), Hh.
  cbn [negb andb].
  destruct (bool_decide
              (DocumentAnalysisView.expandedClause (DocumentAnalysisView.ui w)
               = Some c)) eqn:He;
    cbn [negb DocumentAnalysisView.ui DocumentAnalysisView.expandedClause
         DocumentAnalysisView.setExpandedClause
         DocumentAnalysisView.setLoadingExplanations].
  - rewrite bool_decide_eq_false_2 by discriminate.
    cbn [negb DocumentAnalysisView.sentLog DocumentAnalysisView.inflight
         DocumentAnalysisView.ui DocumentAnalysisView.expandedClause
         DocumentAnalysisView.setExpandedClause
         DocumentAnalysisView.setLoadingExplanations].
    unfold DocumentAnalysisView.pendingFor. cbn [DocumentAnalysisView.inflight].
    rewrite pending_app, filter_cons_True by reflexivity.
    repeat apply conj; [reflexivity | simpl; lia | reflexivity].
  - rewrite bool_decide_eq_true_2 by reflexivity.
    cbn [negb DocumentAnalysisView.sentLog DocumentAnalysisView.inflight
         DocumentAnalysisView.ui DocumentAnalysisView.expandedClause
         DocumentAnalysisView.setExpandedClause
         DocumentAnalysisView.setLoadingExplanations].
    unfold DocumentAnalysisView.pendingFor. cbn [DocumentAnalysisView.inflight].
    rewrite pending_app, filter_cons_True by reflexivity.
    repeat apply conj; [reflexivity | simpl; lia | reflexivity].
Qed.

Lemma two_clicks_one_request_witness :
  DocumentAnalysisView.hasExplanation
    (DocumentAnalysisView.ui DocumentAnalysisView.start) Sample.c1 = false
  /\ DocumentAnalysisView.sentLog
       (DocumentAnalysisView.step Sample.session
          (DocumentAnalysisView.step Sample.session DocumentAnalysisView.start
             (DocumentAnalysisView.Click Sample.c1 Sample.explains))
          (DocumentAnalysisView.Click Sample.c1 Sample.explains))
     = [explainRequest (js "s1") Sample.c1].
Proof.
  split; [reflexivity|].
  exact (proj1
    (two_clicks_one_request Sample.session DocumentAnalysisView.start Sample.c1
       Sample.explains Sample.explains eq_refl)).
Defined.

(** ** [slice] and [indexOf] *)

Lemma slice_prefix (a b : jsstring) :
  slice (a ++ b) 0 (Z.of_nat (length a)) = a.
Proof.
  unfold slice. rewrite length_app.
  replace (0 <? 0) with false by reflexivity.
  replace (Z.of_nat (length a) <? 0) with false by (symmetry; apply Z.ltb_ge; lia).
  rewrite !Z.min_l by lia. rewrite Z.sub_0_r, Nat2Z.id.
  change (Z.to_nat 0) with 0%nat. rewrite drop_0. apply take_app_length.
Qed.

Lemma sliceFrom_suffix (a b : jsstring) :
  sliceFrom (a ++ b) (Z.of_nat (length a)) = b.
Proof.
  unfold sliceFrom, slice. rewrite length_app.
  replace (Z.of_nat (length a) <? 0) with false by (symmetry; apply Z.ltb_ge; lia).
  replace (Z.of_nat (length a + length b) <? 0) with false
    by (symmetry; apply Z.ltb_ge; lia).
  rewrite Z.min_id. rewrite Z.min_l by lia.
  rewrite Nat2Z.id, drop_app_length.
  replace (Z.to_nat (Z.of_nat (length a + length b) - Z.of_nat (length a)))
    with (length b) by lia.
  apply firstn_all.
Qed.

(** A found index splits the string at the first occurrence. *)
Lemma indexOf_split (c : N) (s : jsstring) :
  0 <= indexOf c s ->
  exists a b, s = a ++ c :: b /\ (c ∉ a) /\ indexOf c s = Z.of_nat (length a).
Proof.
  induction s as [|x r IH]; simpl; [lia|].
  destruct (x =? c)%N eqn:Hx.
  - apply N.eqb_eq in Hx. subst x. intros _. exists [], r.
    repeat split. apply not_elem_of_nil.
  - destruct (indexOf c r <? 0) eqn:Hi; [lia|].
    apply Z.ltb_ge in Hi. intros _. destruct (IH Hi) as (a & b & -> & Hn & Hl).
    exists (x :: a), b. repeat split.
    + intros [Heq|Hin]%elem_of_cons; [|exact (Hn Hin)].
      subst x. rewrite N.eqb_refl in Hx. discriminate.
    + rewrite Hl. simpl length. lia.
Qed.

Lemma indexOf_bound (c : N) (s : jsstring) : indexOf c s < Z.of_nat (length s).
Proof.
  induction s as [|x r IH]; simpl; [lia|].
  destruct (x =? c)%N; [lia|]. destruct (indexOf c r <? 0); lia.
Qed.

(** ** Rendering helpers of the analysis view *)

(** X18: the clause text shown is the text itself up to 1200 code units;
    a longer text is cut to its first 1200 code units followed by a line
    break and "... [truncated]", 1216 code units in all, so what is shown
    never exceeds 1216 code units. *)
Theorem displayText_bounded (text : jsstring) :
  (length (DocumentAnalysisView.displayText text) <= 1216)%nat
  /\ ((length text <= 1200)%nat -> DocumentAnalysisView.displayText text = text)
  /\ ((1200 < length text)%nat ->
      DocumentAnalysisView.displayText text
      = take 1200 text ++ 10%N :: js "... [truncated]"
      /\ length (DocumentAnalysisView.displayText text) = 1216%nat).
Proof.
  assert (Hlong : (1200 < length text)%nat ->
                  DocumentAnalysisView.displayText text
                  = take 1200 text ++ 10%N :: js "... [truncated]").
  { intros Hl. unfold DocumentAnalysisView.displayText.
    rewrite (proj2 (Nat.ltb_lt _ _) Hl).
    rewrite <- (take_drop 1200 text) at 1.
    replace 1200 with (Z.of_nat (length (take 1200 text))) at 1
      by (rewrite length_take; lia).
    rewrite slice_prefix. reflexivity. }
  assert (Hshort : (length text <= 1200)%nat ->
                   DocumentAnalysisView.displayText text = text).
  { intros Hl. unfold DocumentAnalysisView.displayText.
    rewrite (proj2 (Nat.ltb_ge _ _) Hl). reflexivity. }
  assert (Hmark : length (10%N :: js "... [truncated]") = 16%nat) by reflexivity.
  repeat apply conj.
  - destruct (le_lt_dec (length text) 1200) as [Hl|Hl].
    + rewrite (Hshort Hl). lia.
    + rewrite (Hlong Hl), length_app, length_take, Hmark. lia.
  - exact Hshort.
  - intros Hl. split; [exact (Hlong Hl)|].
    rewrite (Hlong Hl), length_app, length_take, Hmark. lia.
Qed.

Lemma displayText_bounded_witness :
  (length (js "The tenant shall pay rent.") <= 1200)%nat
  /\ DocumentAnalysisView.displayText (js "The tenant shall pay rent.")
     = js "The tenant shall pay rent.".
Proof.
  assert (H : (length (js "The tenant shall pay rent.") <= 1200)%nat)
    by (vm_compute; lia).
  split; [exact H|].
  exact (proj1 (proj2 (displayText_bounded (js "The tenant shall pay rent."))) H).
Defined.

Section Markdown.

Import DocumentAnalysisView.

Lemma unbold_cons2 inside c c2 r :
  unbold inside (c :: c2 :: r)
  = if ((c =? 42) && (c2 =? 42))%N then
      if inside then unbold false r
      else if closes r then unbold true r
      else c :: unbold false (c2 :: r)
    else c :: unbold inside (c2 :: r).
Proof. reflexivity. Qed.

Lemma closes_cons2 c c2 r :
  closes (c :: c2 :: r)
  = if ((c =? 42) && (c2 =? 42))%N then true
    else if isLineTerminator c then false
    else closes (c2 :: r).
Proof. reflexivity. Qed.

Lemma unbold_length (n : nat) :
  forall s inside, (length s <= n)%nat ->
    (length (unbold inside s) <= length s)%nat.
Proof.
  induction n as [|n IH]; intros s inside Hn.
  - destruct s; [simpl; lia | simpl in Hn; lia].
  - destruct s as [|c [|c2 r]]; [simpl; lia | simpl; lia |].
    rewrite unbold_cons2. simpl length in *.
    assert (Hr : forall b, (length (unbold b r) <= length r)%nat)
      by (intros b; apply IH; lia).
    assert (Ht : forall b, (length (unbold b (c2 :: r)) <= S (length r))%nat)
      by (intros b; apply (IH (c2 :: r)); simpl; lia).
    destruct ((c =? 42) && (c2 =? 42))%N.
    + destruct inside; [specialize (Hr false); lia|].
      destruct (closes r); [specialize (Hr true); lia|].
      specialize (Ht false).
      change (S (length (unbold false (c2 :: r))) <= S (S (length r)))%nat. lia.
    + specialize (Ht inside).
      change (S (length (unbold inside (c2 :: r))) <= S (S (length r)))%nat. lia.
Qed.

Lemma not_star_eqb (c : N) (s : jsstring) :
  42%N ∉ c :: s -> (c =? 42)%N = false.
Proof.
  intros Hn. apply N.eqb_neq. intros ->. apply Hn, list_elem_of_here.
Qed.

(** Where there is no asterisk nothing is removed. *)
Lemma unbold_no_star (s : jsstring) (inside : bool) :
  42%N ∉ s -> unbold inside s = s.
Proof.
  induction s as [|c t IH]; intros Hn; [reflexivity|].
  destruct t as [|c2 r]; [reflexivity|].
  rewrite unbold_cons2, (not_star_eqb c _ Hn). cbn [andb].
  rewrite IH; [reflexivity|].
  intros Hin. apply Hn. apply list_elem_of_further, Hin.
Qed.

Lemma closes_inline (t post : jsstring) :
  42%N ∉ t ->
  (forall c, c ∈ t -> isLineTerminator c = false) ->
  closes (t ++ 42%N :: 42%N :: post) = true.
Proof.
  induction t as [|c t IH]; intros Hn Hl; [reflexivity|].
  assert (Hc : (c =? 42)%N = false) by exact (not_star_eqb c t Hn).
  assert (IH' : closes (t ++ 42%N :: 42%N :: post) = true).
  { apply IH.
    - intros Hin. apply Hn, list_elem_of_further, Hin.
    - intros x Hx. apply Hl, list_elem_of_further, Hx. }
  destruct t as [|c2 r]; cbn [app] in *.
  - rewrite closes_cons2, Hc, (Hl c (list_elem_of_here _ _)). exact IH'.
  - rewrite closes_cons2, Hc, (Hl c (list_elem_of_here _ _)). exact IH'.
Qed.

Lemma unbold_inside (t post : jsstring) :
  42%N ∉ t ->
  unbold true (t ++ 42%N :: 42%N :: post) = t ++ unbold false post.
Proof.
  induction t as [|c t IH]; intros Hn; [reflexivity|].
  assert (Hc : (c =? 42)%N = false) by exact (not_star_eqb c t Hn).
  assert (IH' : unbold true (t ++ 42%N :: 42%N :: post) = t ++ unbold false post).
  { apply IH. intros Hin. apply Hn, list_elem_of_further, Hin. }
  destruct t as [|c2 r]; cbn [app] in *.
  - rewrite unbold_cons2, Hc. cbn [andb]. rewrite IH'. reflexivity.
  - rewrite unbold_cons2, Hc. cbn [andb]. rewrite IH'. reflexivity.
Qed.

Lemma stripBullet_suffix (text : jsstring) :
  exists a, text = a ++ stripBullet text.
Proof.
  destruct text as [|b [|w r]]; try (exists []; reflexivity).
  unfold stripBullet. destruct (isBullet b && isWhiteSpace w).
  - destruct (trimStart_split r) as (a & Ha & _).
    exists (b :: w :: a). simpl. congruence.
  - exists []. reflexivity.
Qed.

End Markdown.

(** X19: [cleanMarkdown] never makes a text longer, its result has no white
    space at either end, and on a text without an asterisk it only removes
    the leading bullet and trims. *)
Theorem cleanMarkdown_shrinks_and_trims (text : jsstring) :
  (length (DocumentAnalysisView.cleanMarkdown text) <= length text)%nat
  /\ trimmed (DocumentAnalysisView.cleanMarkdown text) = true
  /\ (42%N ∉ text ->
      DocumentAnalysisView.cleanMarkdown text
      = trim (DocumentAnalysisView.stripBullet text)).
Proof.
  unfold DocumentAnalysisView.cleanMarkdown.
  destruct (stripBullet_suffix text) as (a & Ha).
  repeat apply conj.
  - etransitivity; [apply trim_length|].
    etransitivity; [apply (unbold_length _ _ _ (le_n _))|].
    rewrite Ha at 2. rewrite length_app. lia.
  - apply trim_trimmed.
  - intros Hn. rewrite unbold_no_star; [reflexivity|].
    intros Hin. apply Hn. rewrite Ha. apply elem_of_app. right. exact Hin.
Qed.

Lemma cleanMarkdown_shrinks_and_trims_witness :
  (42%N ∉ js "- Rent is due monthly ")
  /\ DocumentAnalysisView.cleanMarkdown (js "- Rent is due monthly ")
     = js "Rent is due monthly".
Proof.
  assert (Hn : 42%N ∉ js "- Rent is due monthly ")
    by (apply (bool_decide_unpack _); vm_compute; exact I).
  split; [exact Hn|].
  exact (proj2 (proj2
    (cleanMarkdown_shrinks_and_trims (js "- Rent is due monthly "))) Hn).
Defined.

(** X20: a text that opens with a phrase in double asterisks, the phrase
    free of asterisks and line breaks and no asterisk after it, is cleaned to
    the phrase and what follows, trimmed; the same holds when a bullet and a
    space come first. *)
Theorem cleanMarkdown_removes_bold_markers
    (bullet : N) (phrase rest : jsstring) :
  42%N ∉ phrase ->
  (forall c, c ∈ phrase -> isLineTerminator c = false) ->
  42%N ∉ rest ->
  DocumentAnalysisView.isBullet bullet = true ->
  DocumentAnalysisView.cleanMarkdown (js "**" ++ phrase ++ js "**" ++ rest)
    = trim (phrase ++ rest)
  /\ DocumentAnalysisView.cleanMarkdown
       (bullet :: 32%N :: js "**" ++ phrase ++ js "**" ++ rest)
     = trim (phrase ++ rest).
Proof.
  intros Hp Hl Hr Hb.
  assert (Hu : DocumentAnalysisView.unbold false
                 (js "**" ++ phrase ++ js "**" ++ rest)
               = phrase ++ rest).
  { change (js "**" ++ phrase ++ js "**" ++ rest)
      with (42%N :: 42%N :: (phrase ++ 42%N :: 42%N :: rest)).
    rewrite unbold_cons2. cbn [N.eqb Pos.eqb andb].
    rewrite (closes_inline phrase rest Hp Hl), (unbold_inside phrase rest Hp).
    rewrite (unbold_no_star rest false Hr). reflexivity. }
  split.
  - unfold DocumentAnalysisView.cleanMarkdown. cbv zeta.
    change (DocumentAnalysisView.stripBullet (js "**" ++ phrase ++ js "**" ++ rest))
      with (js "**" ++ phrase ++ js "**" ++ rest).
    rewrite Hu. reflexivity.
  - unfold DocumentAnalysisView.cleanMarkdown. cbv zeta.
    assert (Hs : DocumentAnalysisView.stripBullet
                   (bullet :: 32%N :: js "**" ++ phrase ++ js "**" ++ rest)
                 = js "**" ++ phrase ++ js "**" ++ rest).
    { unfold DocumentAnalysisView.stripBullet. rewrite Hb. reflexivity. }
    rewrite Hs, Hu. reflexivity.
Qed.

Lemma cleanMarkdown_removes_bold_markers_witness :
  (42%N ∉ js "Term")
  /\ DocumentAnalysisView.cleanMarkdown (js "- **Term**: 12 months ")
     = js "Term: 12 months".
Proof.
  assert (H1 : 42%N ∉ js "Term") by (apply (bool_decide_unpack _); vm_compute; exact I).
  assert (H2 : forall c, c ∈ js "Term" -> isLineTerminator c = false).
  { apply Forall_forall. apply (bool_decide_unpack _). vm_compute. exact I. }
  assert (H3 : 42%N ∉ js ": 12 months ")
    by (apply (bool_decide_unpack _); vm_compute; exact I).
  split; [exact H1|].
  exact (proj2
    (cleanMarkdown_removes_bold_markers 45%N (js "Term") (js ": 12 months ")
       H1 H2 H3 eq_refl)).
Defined.

Lemma indexOf_absent (c : N) (s : jsstring) : indexOf c s < 0 -> c ∉ s.
Proof.
  induction s as [|x r IH]; simpl; [intros _; apply not_elem_of_nil|].
  destruct (x =? c)%N eqn:Hx; [lia|].
  destruct (indexOf c r <? 0) eqn:Hi; [|apply Z.ltb_ge in Hi; lia].
  intros _ [Heq|Hin]%elem_of_cons.
  - subst x. rewrite N.eqb_refl in Hx. discriminate.
  - apply Z.ltb_lt in Hi. exact (IH Hi Hin).
Qed.

(** X21: when [renderPoint] splits a point into a title and a description,
    the cleaned text is the part before its first colon, the colon and the
    part after it; the title and the description are those parts trimmed,
    neither is empty, and the title holds no colon.  Otherwise the cleaned
    text is shown whole, and it has no colon, or begins with one, or its only
    colon is its last character. *)
Theorem renderPoint_parts (text : jsstring) :
  let cleaned := DocumentAnalysisView.cleanMarkdown text in
  match DocumentAnalysisView.renderPoint text with
  | DocumentAnalysisView.Titled title desc =>
      exists a b,
        cleaned = a ++ 58%N :: b
        /\ (58%N ∉ a)
        /\ title = trim a /\ desc = trim b
        /\ title <> [] /\ desc <> []
        /\ (58%N ∉ title)
  | DocumentAnalysisView.Plain shown =>
      shown = cleaned
      /\ ((58%N ∉ cleaned)
          \/ (exists b, cleaned = 58%N :: b)
          \/ (exists a, cleaned = a ++ [58%N] /\ (58%N ∉ a)))
  end.
Proof.
  intros cleaned. unfold DocumentAnalysisView.renderPoint. fold cleaned.
  pose proof (trim_trimmed
                (DocumentAnalysisView.unbold false
                   (DocumentAnalysisView.stripBullet text))) as Htr.
  change (trimmed cleaned = true) in Htr.
  apply andb_prop in Htr as [Hhead Hlast].
  pose proof (indexOf_bound 58 cleaned) as Hbound.
  destruct (Z_lt_le_dec (indexOf 58 cleaned) 0) as [Hneg|Hpos].
  - (* no colon *)
    replace (0 <? indexOf 58 cleaned) with false by (symmetry; apply Z.ltb_ge; lia).
    cbn [andb]. split; [reflexivity|]. left. apply indexOf_absent, Hneg.
  - destruct (indexOf_split 58 cleaned Hpos) as (a & b & Hc & Ha & Hi).
    assert (Hlen : Z.of_nat (length cleaned)
                   = Z.of_nat (length a) + 1 + Z.of_nat (length b)).
    { rewrite Hc, length_app. simpl length. lia. }
    destruct ((0 <? indexOf 58 cleaned)
              && (indexOf 58 cleaned <? Z.of_nat (length cleaned) - 1)) eqn:Hcond.
    + apply andb_prop in Hcond as [H0 H1].
      apply Z.ltb_lt in H0. apply Z.ltb_lt in H1.
      exists a, b.
      assert (Hsa : slice cleaned 0 (indexOf 58 cleaned) = a).
      { rewrite Hi. rewrite Hc at 1. apply slice_prefix. }
      assert (Hsb : sliceFrom cleaned (indexOf 58 cleaned + 1) = b).
      { replace (indexOf 58 cleaned + 1) with (Z.of_nat (length (a ++ [58%N])))
          by (rewrite length_app; simpl length; lia).
        rewrite Hc at 1. rewrite (cons_middle 58%N a b), app_assoc.
        apply sliceFrom_suffix. }
      rewrite Hsa, Hsb.
      repeat apply conj; try reflexivity; try assumption.
      * destruct a as [|x a']; [simpl in Hi; lia|].
        rewrite Hc in Hhead. cbn [app startsClean] in Hhead.
        apply trim_nonempty_head. apply negb_true_iff, Hhead.
      * destruct (exists_last (l := b)) as (b' & y & Hb).
        { intros ->. simpl in Hlen. lia. }
        rewrite Hb. apply trim_nonempty_last.
        rewrite Hc, Hb in Hlast.
        rewrite (cons_middle 58%N a (b' ++ [y])), !app_assoc, rev_unit in Hlast.
        cbn [startsClean] in Hlast. apply negb_true_iff, Hlast.
      * intros Hin. apply Ha. apply trim_elem, Hin.
    + split; [reflexivity|].
      apply andb_false_iff in Hcond as [H0|H1].
      * apply Z.ltb_ge in H0. right. left.
        destruct a as [|x a']; [|simpl in Hi; lia].
        exists b. exact Hc.
      * apply Z.ltb_ge in H1. right. right.
        destruct b as [|y b']; [|simpl in Hlen; lia].
        exists a. split; [exact Hc | exact Ha].
Qed.

(** ** The success banner *)

Lemma uploadOutcome_sets_success respond file setters :
  App.uploadOutcome respond file = inr setters ->
  forall st, is_Some (App.success (setters st)).
Proof.
  unfold App.uploadOutcome, App.upload_try. rewrite uploadDocument_settles.
  unfold await, outcome.
  destruct (respond (uploadRequest file)) as [e|data]; [discriminate|].
  destruct data as [d|]; [|discriminate].
  cbv beta iota. destruct (App.session_id_of (Some d)); [|discriminate].
  cbn [resolve snd]. intros [= <-] st. cbn. eauto.
Qed.

(** X22: no handler of the coordinator clears the success banner: once an
    upload has succeeded the banner stays through every later tab click,
    upload (failed ones too), session load and session update. *)
Theorem success_banner_is_never_cleared
    (evs : list App.Event) (st : App.State) :
  is_Some (App.success st) -> is_Some (App.success (App.run evs st)).
Proof.
  revert st. induction evs as [|ev evs IH]; intros st Hs; [exact Hs|].
  simpl. apply IH.
  destruct ev as [t| |respond file|session|session]; unfold App.step.
  - destruct (App.tabDisabled t st); exact Hs.
  - exact Hs.
  - unfold App.uploadSettle.
    destruct (App.uploadOutcome respond file) as [err|setters] eqn:Ho.
    + exact Hs.
    + apply (uploadOutcome_sets_success respond file setters Ho).
  - exact Hs.
  - exact Hs.
Qed.

Lemma success_banner_is_never_cleared_witness :
  is_Some (App.success (App.run Sample.uploads App.initial))
  /\ is_Some
       (App.success
          (App.run
             [App.UploadBegins;
              App.UploadSettles (fun _ => inl Sample.networkError) Sample.file]
             (App.run Sample.uploads App.initial))).
Proof.
  assert (H : is_Some (App.success (App.run Sample.uploads App.initial)))
    by (eexists; reflexivity).
  split; [exact H|].
  exact (success_banner_is_never_cleared _ _ H).
Defined.

(** * The analysis view under the coordinator *)

Section PageView.

Import DocumentAnalysisView.

Implicit Types (p : Page.State) (w : World) (c : jsstring).

Lemma sessionEffect_keeps sessionData (st : State) :
  clauseExplanations (sessionEffect sessionData st) = clauseExplanations st
  /\ loadingExplanations (sessionEffect sessionData st) = loadingExplanations st
  /\ loadingSummary (sessionEffect sessionData st) = loadingSummary st.
Proof. unfold sessionEffect. destruct (negb _); repeat split. Qed.

(** A property of the view that holds at every mount and is kept by the
    view's own steps and by a change of session holds of the mounted view of
    every page reached. *)
Lemma page_view_invariant (P : World -> Prop) :
  (forall sessionData, P (Page.mount sessionData)) ->
  (forall sessionData w ev, P w -> P (step sessionData w ev)) ->
  (forall sessionData w, P w -> P (Page.rerender sessionData w)) ->
  forall evs p,
    (forall w, Page.mounted p = Some w -> P w) ->
    forall w, Page.mounted (Page.run evs p) = Some w -> P w.
Proof.
  intros Hmount Hstep Hrerender.
  induction evs as [|ev evs IH]; intros p Hp; [exact Hp|].
  simpl. apply IH. intros w.
  destruct ev as [e|e]; unfold Page.step.
  - destruct (Page.analysisProps (App.step (Page.app p) e)) as [[sd da]|],
      (Page.mounted p) as [w0|] eqn:Hm; cbn [Page.mounted]; intros [= <-].
    + destruct (Page.changesSession e); [apply Hrerender|]; apply Hp; reflexivity.
    + apply Hmount.
  - destruct (Page.analysisProps (Page.app p)) as [[sd da]|],
      (Page.mounted p) as [w0|] eqn:Hm; cbn [Page.mounted];
      try (rewrite Hm); intros [= <-].
    + apply Hstep, Hp. reflexivity.
    + apply Hp. reflexivity.
Qed.

Lemma page_step_keeps_explanation p ev w w' c :
  Page.mounted p = Some w ->
  Page.mounted (Page.step p ev) = Some w' ->
  is_Some (clauseExplanations (ui w) !! c) ->
  is_Some (clauseExplanations (ui w') !! c).
Proof.
  intros Hm Hm' Hc. destruct ev as [e|e]; unfold Page.step in Hm'; rewrite Hm in Hm'.
  - destruct (Page.analysisProps (App.step (Page.app p) e)) as [[sd da]|];
      cbn [Page.mounted] in Hm'; [|discriminate Hm'].
    injection Hm' as <-. destruct (Page.changesSession e); [|exact Hc].
    unfold Page.rerender. cbn [ui].
    rewrite (proj1 (sessionEffect_keeps sd (ui w))). exact Hc.
  - destruct (Page.analysisProps (Page.app p)) as [[sd da]|];
      cbn [Page.mounted] in Hm'.
    + injection Hm' as <-. apply step_keeps_explanation, Hc.
    + rewrite Hm in Hm'. injection Hm' as <-. exact Hc.
Qed.

Lemma page_run_keeps_explanation evs :
  forall p w c,
    Page.mountedThrough evs p = true ->
    Page.mounted p = Some w ->
    is_Some (clauseExplanations (ui w) !! c) ->
    exists w', Page.mounted (Page.run evs p) = Some w'
               /\ is_Some (clauseExplanations (ui w') !! c).
Proof.
  induction evs as [|ev evs IH]; intros p w c Ht Hm Hc; [eauto|].
  simpl in *. destruct (Page.mounted (Page.step p ev)) as [w1|] eqn:Hm1;
    [|discriminate Ht].
  apply (IH _ w1 c Ht Hm1).
  exact (page_step_keeps_explanation p ev w w1 c Hm Hm1 Hc).
Qed.

(** A click on a clause whose explanation is stored adds nothing to the log
    of the page. *)
Lemma page_click_cached p w c respond :
  Page.mounted p = Some w ->
  is_Some (clauseExplanations (ui w) !! c) ->
  exists w',
    Page.mounted (Page.step p (Page.OfView (Click c respond))) = Some w'
    /\ clauseExplanations (ui w') = clauseExplanations (ui w)
    /\ inflight w' = inflight w
    /\ Page.log (Page.step p (Page.OfView (Click c respond))) = Page.log p.
Proof.
  intros Hm Hc. unfold Page.step. rewrite Hm.
  destruct (Page.analysisProps (Page.app p)) as [[sd da]|].
  - destruct (click_cached sd w c respond Hc) as (Hs & Hi & He & _).
    eexists. split; [reflexivity|]. split; [exact He|]. split; [exact Hi|].
    unfold Page.log. cbn [Page.mounted Page.archived]. rewrite Hm, Hs.
    reflexivity.
  - exists w. rewrite Hm. repeat split.
Qed.

End PageView.

(** The page mounts the analysis view exactly where [App] renders it. *)
Lemma analysisProps_rendered (a : App.State) (sd : SessionData)
    (da : DocumentAnalysis) :
  Page.analysisProps a = Some (sd, da) <-> App.AnalysisView sd da ∈ App.main a.
Proof.
  unfold Page.analysisProps, App.main. split.
  - destruct (App.currentTab a =? 1); [|discriminate].
    destruct (App.documentAnalysis a), (App.sessionData a); try discriminate.
    intros [= -> ->]. apply elem_of_app. right. apply list_elem_of_here.
  - intros Hin.
    repeat (apply elem_of_app in Hin as [Hin|Hin]);
      try (apply alert_only in Hin as [m Hm]; discriminate Hm).
    + destruct (App.currentTab a =? 0); [|inversion Hin].
      apply list_elem_of_singleton in Hin. discriminate Hin.
    + destruct (App.currentTab a =? 1); [|inversion Hin].
      destruct (App.documentAnalysis a), (App.sessionData a);
        try (inversion Hin; fail).
      apply list_elem_of_singleton in Hin. injection Hin as -> ->. reflexivity.
    + destruct (App.currentTab a =? 2); [|inversion Hin].
      destruct (App.documentAnalysis a), (App.sessionData a);
        try (inversion Hin; fail).
      apply list_elem_of_singleton in Hin. discriminate Hin.
Qed.

(** In every page reached, each clause id in the pending set of the mounted
    view has a request in flight. *)
Lemma page_pending_backed (evs : list Page.Event) (w : DocumentAnalysisView.World) :
  Page.mounted (Page.run evs Page.start) = Some w ->
  DocumentAnalysisView.pending_backed w.
Proof.
  apply (page_view_invariant DocumentAnalysisView.pending_backed).
  - intros sd c Hc. unfold Page.mount in Hc. cbn [DocumentAnalysisView.ui] in Hc.
    rewrite (proj1 (proj2 (sessionEffect_keeps sd _))) in Hc.
    apply not_elem_of_empty in Hc. destruct Hc.
  - intros sd w0 ev. apply step_pending_backed.
  - intros sd w0 Hw c Hc. unfold Page.rerender in Hc.
    cbn [DocumentAnalysisView.ui] in Hc.
    rewrite (proj1 (proj2 (sessionEffect_keeps sd _))) in Hc.
    exact (Hw c Hc).
  - discriminate.
Qed.

(** C7 as stated fails: the explanation of a clause was fetched, the user
    goes to the upload tab and back to the analysis tab, the session being
    the same throughout, and expanding the clause again sends a second
    explanation request. *)
Lemma tab_switch_forgets_explanations :
  let back := Page.run Sample.awayAndBack Sample.explainedPage in
  let again :=
    Page.step back
      (Page.OfView (DocumentAnalysisView.Click Sample.c1 Sample.explains)) in
  (exists w,
     Page.mounted Sample.explainedPage = Some w
     /\ DocumentAnalysisView.clauseExplanations (DocumentAnalysisView.ui w)
          !! Sample.c1 = Some Sample.explained)
  /\ App.sessionData (Page.app back)
     = App.sessionData (Page.app Sample.explainedPage)
  /\ ~ (Page.log again = Page.log back).
Proof.
  intros back again. repeat apply conj.
  - eexists. split; [reflexivity|]. vm_compute. reflexivity.
  - reflexivity.
  - intros H. apply (f_equal length) in H. vm_compute in H. discriminate H.
Qed.

(** C7, as the code has it: once a request for a clause has been delivered
    with an explanation, that explanation is stored under the clause id; as
    long as the analysis view stays mounted, whatever else happens on the
    page, an explanation for the clause stays stored, and a later click on
    the clause sends no request and leaves the stored explanations and the
    requests in flight as they are. *)
Theorem second_expand_uses_cache_while_mounted
    (p : Page.State) (sessionData : SessionData) (da : DocumentAnalysis)
    (w : DocumentAnalysisView.World) (n : nat) (c : jsstring)
    (pr : Promise ClauseExplanation) (e : ClauseExplanation)
    (evs : list Page.Event) (respond : Request -> Settled ClauseExplanation) :
  Page.analysisProps (Page.app p) = Some (sessionData, da) ->
  Page.mounted p = Some w ->
  DocumentAnalysisView.inflight w !! n = Some (c, pr) ->
  outcome pr = inr e ->
  let p1 := Page.step p (Page.OfView (DocumentAnalysisView.Deliver n)) in
  Page.mountedThrough evs p1 = true ->
  let p2 := Page.run evs p1 in
  let p3 := Page.step p2 (Page.OfView (DocumentAnalysisView.Click c respond)) in
  (exists w1,
     Page.mounted p1 = Some w1
     /\ DocumentAnalysisView.clauseExplanations (DocumentAnalysisView.ui w1) !! c
        = Some e)
  /\ (exists w2 w3,
        Page.mounted p2 = Some w2
        /\ Page.mounted p3 = Some w3
        /\ is_Some (DocumentAnalysisView.clauseExplanations
                      (DocumentAnalysisView.ui w2) !! c)
        /\ DocumentAnalysisView.clauseExplanations (DocumentAnalysisView.ui w3)
           = DocumentAnalysisView.clauseExplanations (DocumentAnalysisView.ui w2)
        /\ DocumentAnalysisView.inflight w3 = DocumentAnalysisView.inflight w2)
  /\ Page.log p3 = Page.log p2.
Proof.
  intros Hprops Hm Hn Hp p1 Ht p2 p3.
  set (w1 := DocumentAnalysisView.step sessionData w (DocumentAnalysisView.Deliver n)).
  assert (Hm1 : Page.mounted p1 = Some w1).
  { subst p1. unfold Page.step. rewrite Hprops, Hm. reflexivity. }
  assert (H1 : DocumentAnalysisView.clauseExplanations (DocumentAnalysisView.ui w1) !! c
               = Some e).
  { subst w1. unfold DocumentAnalysisView.step. rewrite Hn.
    cbn [DocumentAnalysisView.ui]. rewrite expandSettle_explanations, Hp.
    apply lookup_insert_eq. }
  destruct (page_run_keeps_explanation evs p1 w1 c Ht Hm1) as (w2 & Hm2 & H2).
  { rewrite H1. eauto. }
  destruct (page_click_cached p2 w2 c respond Hm2 H2) as (w3 & Hm3 & He & Hi & Hl).
  split; [exists w1; auto|]. split; [|exact Hl].
  exists w2, w3. auto.
Qed.

Lemma second_expand_uses_cache_while_mounted_witness :
  Page.mountedThrough
    [Page.OfView (DocumentAnalysisView.Click Sample.c1 Sample.explains)]
    Sample.explainedPage = true
  /\ Page.log
       (Page.step
          (Page.run
             [Page.OfView (DocumentAnalysisView.Click Sample.c1 Sample.explains)]
             Sample.explainedPage)
          (Page.OfView (DocumentAnalysisView.Click Sample.c1 Sample.explains)))
     = Page.log
         (Page.run
            [Page.OfView (DocumentAnalysisView.Click Sample.c1 Sample.explains)]
            Sample.explainedPage).
Proof.
  split; [reflexivity|].
  exact (proj2 (proj2
    (second_expand_uses_cache_while_mounted Sample.fetchingPage
       Sample.uploadedSession
       Sample.leaseWithClause
       (DocumentAnalysisView.step
          Sample.uploadedSession
          (Page.mount
             Sample.uploadedSession)
          (DocumentAnalysisView.Click Sample.c1 Sample.explains))
       0 Sample.c1
       (ApiService.explainClause Sample.explains (js "s2") Sample.c1)
       Sample.explained
       [Page.OfView (DocumentAnalysisView.Click Sample.c1 Sample.explains)]
       Sample.explains eq_refl eq_refl eq_refl eq_refl eq_refl))).
Defined.




